(** * The post repository of the blog platform API

    A shallow embedding of [src/posts/repository.ts]: the five repository
    operations [getPosts], [getPostById], [createPost], [updatePost] and
    [deletePost], written in a small exception-and-state monad over a model
    of the relational store they talk to.

    The store has the three keyed tables and the join table the repository
    names ([postTable], [categoryTable], [tagTable], [postsToTags]).  Every
    statement the repository awaits is one [query]; a statement is run on
    its own, there is no transaction around the statements of a call, as in
    the source.  A statement may be failed by the storage engine for reasons
    outside the tables (lost connection, timeout, ...): the world carries a
    schedule of such faults, one slot per executed statement.

    What the repository imports and the sources do not contain (the schema,
    the query builder and the store behind it) is modelled statement by
    statement in [Section Repository]; the identifier syntax of the schema,
    the two title functions, the generator of new ids and the order in
    which the store returns the rows of a select without [ORDER BY] are
    parameters of that section, so every general statement holds for each
    choice of them.  The handlers of [src/router.ts] are modelled over the
    operations, with the range check the framework makes on the status of a
    reply. *)

From stdpp Require Import gmap strings list fin_maps.

Open Scope string_scope.

(** ** Values thrown and returned *)

(** What a [catch (e)] clause receives, read as a [DatabaseError]: the
    repository only ever looks at [error.code], which is [undefined] for a
    plain [Error] or [TypeError]. *)
Record DatabaseError := mkError {
  message : string;
  code : option string
}.

Inductive Outcome (A : Type) : Type :=
| Returned (a : A)
| Thrown (e : DatabaseError).
Arguments Returned {A} a.
Arguments Thrown {A} e.

(** The [{ data, errorCode }] object every guarded operation resolves to;
    error codes are the string literals of the source. *)
Record Result (A : Type) := mkResult {
  data : option A;
  errorCode : option string
}.
Arguments mkResult {A} data errorCode.
Arguments data {A} r.
Arguments errorCode {A} r.

(** ** Rows *)

(** A row of [postTable], keyed by its id in the table.  The two timestamp
    columns are filled by column defaults of the schema and are read by no
    operation below other than being copied to the response; they are left
    out. *)
Record PostRow := mkPostRow {
  r_title : string;
  r_normalizedTitle : string;
  r_slug : string;
  r_content : string;
  r_published : option bool;
  r_categoryId : option string
}.

(** The object a [returning({...columns, categoryId})] or the select of
    [getPostById] yields for a row: every column but [normalizedTitle]. *)
Record Post := mkPost {
  id : string;
  title : string;
  p_slug : string;
  content : string;
  published : option bool;
  categoryId : option string
}.

(** [{ ...post, category, tags }]; [tags = None] is a response object
    without a [tags] property. *)
Record PostData := mkPostData {
  post : Post;
  category : option string;
  tags : option (list string)
}.

(** An element of the array [findMany] resolves to in [getPosts]. *)
Record PostWithRelations := mkPostWithRelations {
  l_post : Post;
  l_category : option string;
  l_postsToTags : list string
}.

(** The argument objects of [createPost] and [updatePost].  An absent or
    [null] [categoryId] is [None]; [tagIds : undefined] is [None]. *)
Record CreateData := mkCreateData {
  c_title : string;
  c_content : string;
  c_categoryId : option string;
  c_published : option bool;
  c_tagIds : list string
}.

Record UpdateData := mkUpdateData {
  u_title : string;
  u_content : string;
  u_categoryId : option string;
  u_published : option bool;
  u_tagIds : option (list string)
}.

(** ** The store *)

Record Db := mkDb {
  postTable : gmap string PostRow;
  categoryTable : gmap string string;
  tagTable : gmap string string;
  postsToTags : list (string * string)
}.

(** The world a call runs in: the tables, the faults the storage engine is
    going to raise (slot [n] decides the [n]-th statement executed from now
    on; [None] or a missing slot lets it run), and the position in the
    stream of generated identifiers. *)
Record World := mkWorld {
  db : Db;
  faults : list (option DatabaseError);
  entropy : nat
}.

Definition set_db (d : Db) (w : World) : World :=
  mkWorld d (faults w) (entropy w).
Definition set_faults (fs : list (option DatabaseError)) (w : World) : World :=
  mkWorld (db w) fs (entropy w).
Definition set_postTable (t : gmap string PostRow) (d : Db) : Db :=
  mkDb t (categoryTable d) (tagTable d) (postsToTags d).
Definition set_postsToTags (l : list (string * string)) (d : Db) : Db :=
  mkDb (postTable d) (categoryTable d) (tagTable d) l.

(** ** Promises as a state-and-exception monad *)

Definition M (A : Type) : Type := World -> Outcome A * World.

Definition ret {A} (a : A) : M A := fun w => (Returned a, w).
Definition throw {A} (e : DatabaseError) : M A := fun w => (Thrown e, w).
Definition bind {A B} (m : M A) (k : A -> M B) : M B := fun w =>
  match m w with
  | (Returned a, w1) => k a w1
  | (Thrown e, w1) => (Thrown e, w1)
  end.
Definition try_catch {A} (body : M A) (handler : DatabaseError -> M A) : M A :=
  fun w =>
    match body w with
    | (Returned a, w1) => (Returned a, w1)
    | (Thrown e, w1) => handler e w1
    end.

Notation "'let*' x ':=' m 'in' k" := (bind m (fun x => k))
  (at level 10, x binder, m at level 100, k at level 200).

(** Errors raised by the storage engine carry an SQLSTATE; errors raised by
    the JavaScript runtime or the query builder carry none. *)
Definition pg_error (sqlstate : string) : DatabaseError :=
  mkError "database error" (Some sqlstate).
Definition js_error (msg : string) : DatabaseError := mkError msg None.

(** [x.prop] on a value that may be [undefined]. *)
Definition deref {A} (o : option A) : M A :=
  match o with
  | Some a => ret a
  | None => throw (js_error "Cannot read properties of undefined")
  end.

(** JavaScript truthiness of a [string | null]: [Some s] when [if (o)]
    takes its branch, with the string it then holds. *)
Definition truthy (o : option string) : option string :=
  match o with
  | Some s => if decide (s = EmptyString) then None else Some s
  | None => None
  end.

(** One slot of the fault schedule is consumed by each executed statement. *)
Definition head_fault (fs : list (option DatabaseError)) : option DatabaseError :=
  match fs with
  | Some e :: _ => Some e
  | _ => None
  end.

Definition next_fault (w : World) : option DatabaseError := head_fault (faults w).

Definition advance (w : World) : World := set_faults (tail (faults w)) w.

Definition fault_check : M unit := fun w =>
  match next_fault w with
  | Some e => (Thrown e, advance w)
  | None => (Returned tt, advance w)
  end.

Definition on_db {A} (run : Db -> Outcome A * Db) : M A := fun w =>
  let '(r, d) := run (db w) in (r, set_db d w).

Definition query {A} (run : Db -> Outcome A * Db) : M A :=
  let* _ := fault_check in on_db run.

Definition to_post (i : string) (r : PostRow) : Post :=
  mkPost i (r_title r) (r_slug r) (r_content r) (r_published r) (r_categoryId r).

(** The association rows of one post, and the tags they point to. *)
Definition rows_of (p : string) (l : list (string * string)) : list (string * string) :=
  filter (fun r => r.1 = p) l.
Definition tagIds_of (p : string) (d : Db) : list string :=
  (rows_of p (postsToTags d)).*2.

(** ** The order of result rows

    None of the selects of the repository has an [ORDER BY]: the store
    returns the rows of each result in an order of its own.  A result is
    therefore a rearrangement of the rows the query describes, steered by
    keys the store picks: [shuffle ks l] puts the first row of [l] at
    position [k] of the rearranged rest, for the first key [k] (at its end
    when [k] is too large), so the keys reach every order of [l] and nothing
    but orders of [l]. *)
Fixpoint shuffle {A} (ks : list nat) (l : list A) : list A :=
  match l with
  | [] => []
  | x :: rest =>
      let r := shuffle (tail ks) rest in
      let k := default 0 (head ks) in
      take k r ++ x :: drop k r
  end.

(** The keys the store picks for each of the four selects that return
    several rows, as a function of the rows to return: two different
    queries are ordered independently of each other. *)
Record RowOrder := mkRowOrder {
  in_select_tags : list (string * string) -> list nat;
  in_tag_join : list string -> list nat;
  in_find_many : list (string * PostRow) -> list nat;
  in_find_many_tags : list string -> list nat
}.

(** ** A concrete store

    Identifiers in their canonical textual form: 36 characters, hyphens at
    positions 8, 13, 18 and 23, hexadecimal digits elsewhere. *)

Definition hex_digit (a : Ascii.ascii) : bool :=
  let n := Ascii.nat_of_ascii a in
  (Nat.leb 48 n && Nat.leb n 57) || (Nat.leb 97 n && Nat.leb n 102)
  || (Nat.leb 65 n && Nat.leb n 70).

Fixpoint uuid_chars (pos : nat) (s : string) : bool :=
  match s with
  | EmptyString => Nat.eqb pos 36
  | String a rest =>
      (if Nat.eqb pos 8 || Nat.eqb pos 13 || Nat.eqb pos 18 || Nat.eqb pos 23
       then Nat.eqb (Ascii.nat_of_ascii a) 45 else hex_digit a)
      && uuid_chars (S pos) rest
  end.

Definition is_uuid (s : string) : bool := uuid_chars 0 s.

(** Identity stand-ins for the two title functions, and a generator counting
    through one block of identifiers. *)
Definition demo_normalize (s : string) : string := s.
Definition demo_slug (s : string) : string := s.
Definition demo_uuid (n : nat) : string :=
  match n with
  | 0 => "00000000-0000-0000-0000-0000000000a0"
  | 1 => "00000000-0000-0000-0000-0000000000a1"
  | _ => "00000000-0000-0000-0000-0000000000a2"
  end.

Definition post1 : string := "00000000-0000-0000-0000-000000000001".
Definition post2 : string := "00000000-0000-0000-0000-000000000002".
Definition cat1 : string := "00000000-0000-0000-0000-0000000000c1".
Definition tag1 : string := "00000000-0000-0000-0000-0000000000f1".
Definition tag2 : string := "00000000-0000-0000-0000-0000000000f2".
Definition tag9 : string := "00000000-0000-0000-0000-0000000000f9".

Definition demo_db : Db :=
  mkDb
    {[ post1 := mkPostRow "Hello World" "Hello World" "Hello World" "hi"
                  (Some false) None;
       post2 := mkPostRow "Second" "Second" "Second" "text"
                  (Some true) (Some cat1) ]}
    {[ cat1 := "news" ]}
    {[ tag1 := "tag-one"; tag2 := "tag-two" ]}
    [(post1, tag1); (post2, tag2)].

Definition demo_world : World := mkWorld demo_db [] 0.

(** The same store with [post1] linked to [tag2] as well. *)
Definition linked_db : Db :=
  set_postsToTags ((post1, tag2) :: postsToTags demo_db) demo_db.
Definition linked_world : World := mkWorld linked_db [] 0.

(** A store that returns the selected tags and the listed posts against
    table order and the rows of the two tag joins in the order in which it
    finds them. *)
Definition demo_order : RowOrder :=
  mkRowOrder (fun l => replicate (length l) (length l)) (fun _ => [])
    (fun l => replicate (length l) (length l)) (fun _ => []).

(** ** Vocabulary of the statements below *)

(** Between two positions [fs] and [fs'] of the fault schedule no fault was
    raised: [fs'] is [fs] with some slots consumed, none of which held an
    error. *)
Definition quiet (fs fs' : list (option DatabaseError)) : Prop :=
  ∃ n, fs' = drop n fs ∧ ∀ e, Some e ∉ take n fs.

(** The rows [select_tags] resolves a list of tag ids to. *)
Definition selected (ids : list string) (d : Db) : list (string * string) :=
  filter (fun t => t.1 ∈ ids) (map_to_list (tagTable d)).

(** How many association rows link post [p] and tag [t]. *)
Definition link_count (p t : string) (d : Db) : nat :=
  length (filter (fun r => r = (p, t)) (postsToTags d)).

(** The closed error-kind sets of the four guarded operations. *)
Definition get_errors : list string := ["post_not_found"; "cannot_get_post"].
Definition create_errors : list string :=
  ["duplicate_post_title"; "category_not_found"; "cannot_create_post"].
Definition update_errors : list string :=
  ["duplicate_post_title"; "category_not_found"; "cannot_update_post"].
Definition delete_errors : list string := ["post_not_found"; "cannot_delete_post"].

(** A result is well formed for an error set: either data and no error code,
    or no data and an error code of the set. *)
Definition domain_result {A} (errors : list string) (r : Result A) : Prop :=
  match errorCode r with
  | None => is_Some (data r)
  | Some c => c ∈ errors ∧ data r = None
  end.

(** ** The replies of the request layer

    What a handler of [posts/router.ts] passes to [c.json] or [c.body]: a
    body and a status.  The status is an integer because the handlers pass
    [-1] for the failures they have no status for, which no response can
    carry (see [respond]); [c.json] without a status argument is a 200. *)

(** A post as the handlers serialise it once [categoryId] is destructured
    away: [{ ...post, category, tags }]. *)
Record PostView := mkPostView {
  v_id : string;
  v_title : string;
  v_slug : string;
  v_content : string;
  v_published : option bool;
  v_category : option string;
  v_tags : option (list string)
}.

Inductive Body : Type :=
| Problem (p_title p_detail : string) (p_status : Z)
| PostsBody (posts : list PostView)
| PostBody (p : PostView)
| CreatedBody (d : option PostData)
| EmptyBody.

Record Reply := mkReply {
  body : Body;
  status : Z
}.

(** The validated body of [PUT /:id] ([postSchema.partial()]): every field
    may be absent (outer [None]); a present [categoryId] or [published] may
    be [null] (inner [None]). *)
Record PutBody := mkPutBody {
  pb_title : option string;
  pb_content : option string;
  pb_categoryId : option (option string);
  pb_published : option (option bool);
  pb_tagIds : option (list string)
}.

(** The constants of the [http-status-codes] package the handlers use. *)
Definition OK : Z := 200.
Definition CREATED : Z := 201.
Definition NO_CONTENT : Z := 204.
Definition NOT_FOUND : Z := 404.
Definition CONFLICT : Z := 409.
Definition UNPROCESSABLE_ENTITY : Z := 422.

(** The reply [c.json({ title, detail, status }, status)] builds when the
    status is one a response can carry. *)
Definition problem (t d : string) (s : Z) : Reply := mkReply (Problem t d s) s.

(** [const { categoryId, ...post } = data] *)
Definition strip (d : PostData) : PostView :=
  mkPostView (id (post d)) (title (post d)) (p_slug (post d)) (content (post d))
    (published (post d)) (category d) (tags d).

(** The element [GET /] builds from a [findMany] row:
    [{ ...p, category: category?.name ?? null, tags: postsToTags.map(...) }]. *)
Definition list_view (p : PostWithRelations) : PostView :=
  mkPostView (id (l_post p)) (title (l_post p)) (p_slug (l_post p))
    (content (l_post p)) (published (l_post p)) (l_category p)
    (Some (l_postsToTags p)).

Section Repository.

(** What the sources under [src/] import and do not define. *)

(** The identifier syntax of the schema: the store rejects a parameter that
    is compared with, or written to, an id column and is not a well-formed
    identifier with SQLSTATE 22P02, the code [getPostById] and [deletePost]
    read as "not found". *)
Variable valid_id : string -> bool.
(** [normalizeString] of [lib/index.js] and the [slug] package. *)
Variable normalizeString : string -> string.
Variable slug : string -> string.
(** The identifiers the store generates for new rows, in order. *)
Variable gen_random_uuid : nat -> string.
(** The order in which the store returns the rows of a result. *)
Variable row_order : RowOrder.

Definition valid_ref (o : option string) : bool :=
  match o with
  | Some c => valid_id c
  | None => true
  end.

(** ** Statements *)

(** Unique index on [normalizedTitle]: some row other than [skip] already
    has the normalized title [n]. *)
Definition title_taken (n : string) (skip : option string)
    (t : gmap string PostRow) : bool :=
  bool_decide (map_Exists
    (fun j r => Some j ≠ skip ∧ r_normalizedTitle r = n) t).

(** Foreign key of [postTable.categoryId]. *)
Definition category_missing (o : option string) (d : Db) : bool :=
  match o with
  | Some c => bool_decide (categoryTable d !! c = None)
  | None => false
  end.

(** [select({...columns, categoryId, category: categoryTable.name})
     .from(postTable).leftJoin(categoryTable, ...).where(eq(postTable.id, id))
     .limit(1)] *)
Definition select_post (i : string) (d : Db)
    : Outcome (list (Post * option string)) * Db :=
  if valid_id i then
    (Returned
       match postTable d !! i with
       | Some r => [(to_post i r, r_categoryId r ≫= fun c => categoryTable d !! c)]
       | None => []
       end, d)
  else (Thrown (pg_error "22P02"), d).

(** [select({ name }).from(tagTable).innerJoin(postsToTags, eq(tagId, id))
     .where(eq(postsToTags.postId, p))] *)
Definition tag_join (p : string) (d : Db) : list string :=
  map_to_list (tagTable d) ≫= fun t =>
    (fun _ => t.2) <$> filter (fun r => r.2 = t.1 ∧ r.1 = p) (postsToTags d).

(** The rows of that join, in the order in which the store returns them. *)
Definition tag_names_of (p : string) (d : Db) : list string :=
  shuffle (in_tag_join row_order (tag_join p d)) (tag_join p d).

Definition select_tag_names (p : string) (d : Db) : Outcome (list string) * Db :=
  (Returned (tag_names_of p d), d).

(** [insert(postTable).values(v).returning(...)].  Constraints are checked
    in the order the store applies them: parameters are parsed first (22P02),
    unique indexes when the row is written (23505), references at the end of
    the statement (23503).  An [undefined] [published] takes the column
    default, which the data model gives as [false]. *)
Definition insert_post (i : string) (v : PostRow) (d : Db)
    : Outcome (list Post) * Db :=
  if negb (valid_ref (r_categoryId v)) then (Thrown (pg_error "22P02"), d)
  else if bool_decide (is_Some (postTable d !! i)) then (Thrown (pg_error "23505"), d)
  else if title_taken (r_normalizedTitle v) None (postTable d) then
    (Thrown (pg_error "23505"), d)
  else if category_missing (r_categoryId v) d then (Thrown (pg_error "23503"), d)
  else
    let r := mkPostRow (r_title v) (r_normalizedTitle v) (r_slug v) (r_content v)
               (Some (default false (r_published v))) (r_categoryId v) in
    (Returned [to_post i r], set_postTable (<[i := r]> (postTable d)) d).

(** [update(postTable).set(v).where(eq(postTable.id, i)).returning(...)] *)
Definition update_post (i : string) (v : PostRow) (d : Db)
    : Outcome (list Post) * Db :=
  if negb (valid_id i && valid_ref (r_categoryId v)) then
    (Thrown (pg_error "22P02"), d)
  else
    match postTable d !! i with
    | None => (Returned [], d)
    | Some _ =>
        if title_taken (r_normalizedTitle v) (Some i) (postTable d) then
          (Thrown (pg_error "23505"), d)
        else if category_missing (r_categoryId v) d then
          (Thrown (pg_error "23503"), d)
        else (Returned [to_post i v], set_postTable (<[i := v]> (postTable d)) d)
    end.

(** The tags of [selected], in the order the store returns them. *)
Definition chosen (ids : list string) (d : Db) : list (string * string) :=
  shuffle (in_select_tags row_order (selected ids d)) (selected ids d).

(** [select({ id, name }).from(tagTable).where(inArray(tagTable.id, ids))] *)
Definition select_tags (ids : list string) (d : Db)
    : Outcome (list (string * string)) * Db :=
  if forallb valid_id ids then (Returned (chosen ids d), d)
  else (Thrown (pg_error "22P02"), d).

(** [insert(postsToTags).values(rows)]: the query builder refuses an empty
    list of rows when [values] is called, before anything is sent to the
    store.  The rows the repository builds pair an existing post with
    selected tags, so the references of the join table hold. *)
Definition insert_post_tags (rows : list (string * string)) : M unit :=
  match rows with
  | [] => throw (js_error "values() must be called with at least one value")
  | _ => query (fun d => (Returned tt, set_postsToTags (postsToTags d ++ rows) d))
  end.

(** [delete(postsToTags).where(eq(postsToTags.postId, p))] *)
Definition delete_post_tags (p : string) (d : Db) : Outcome unit * Db :=
  (Returned tt, set_postsToTags (filter (fun r => r.1 ≠ p) (postsToTags d)) d).

(** [select({ name }).from(categoryTable).where(eq(categoryTable.id, c))] *)
Definition select_category (c : string) (d : Db) : Outcome (list string) * Db :=
  (Returned (option_list (categoryTable d !! c)), d).

(** Modelled from the spec: the schema (lib/database/schema.js) is not among
    the sources; the spec has the association rows of a deleted post removed
    by a storage-level cascade, so the reference from [postsToTags.postId]
    to [postTable.id] is taken to be declared with on-delete cascade. *)
Definition cascade_postsToTags (p : string) (d : Db) : Db :=
  set_postsToTags (filter (fun r => r.1 ≠ p) (postsToTags d)) d.

(** [delete(postTable).where(eq(postTable.id, i)).returning({ id })] *)
Definition delete_post (i : string) (d : Db) : Outcome (list string) * Db :=
  if valid_id i then
    match postTable d !! i with
    | None => (Returned [], d)
    | Some _ =>
        (Returned [i],
         cascade_postsToTags i (set_postTable (delete i (postTable d)) d))
    end
  else (Thrown (pg_error "22P02"), d).

(** The relation [postsToTags: { with: { tag } }] of one post in
    [findMany]: its association rows, each with the tag it references. *)
Definition tags_through_rows (p : string) (d : Db) : list string :=
  omap (fun r : string * string => tagTable d !! r.2) (rows_of p (postsToTags d)).

(** [query.postTable.findMany({ with: { category, postsToTags: { tag } } })] *)
Definition find_many (d : Db) : Outcome (list PostWithRelations) * Db :=
  (Returned
     ((fun ir => mkPostWithRelations (to_post ir.1 ir.2)
                   (r_categoryId ir.2 ≫= fun c => categoryTable d !! c)
                   (shuffle (in_find_many_tags row_order (tags_through_rows ir.1 d))
                      (tags_through_rows ir.1 d)))
        <$> shuffle (in_find_many row_order (map_to_list (postTable d)))
              (map_to_list (postTable d))), d).

(** The generated primary key of a new post row. *)
Definition fresh_uuid : M string := fun w =>
  (Returned (gen_random_uuid (entropy w)),
   mkWorld (db w) (faults w) (S (entropy w))).

(** ** The repository operations *)

(** [logDbError] of [lib/database/error.js] writes to the log only. *)
Definition logDbError (e : DatabaseError) : M unit := ret tt.

Definition getPosts : M (list PostWithRelations) := query find_many.

Definition getPostById (i : string) : M (Result PostData) :=
  try_catch
    (let* posts := query (select_post i) in
     let* p :=
       match head posts with
       | Some p => ret p
       | None => throw (mkError "Post Not Found" (Some "22P02"))
       end in
     let* names := query (select_tag_names (id p.1)) in
     ret (mkResult (Some (mkPostData p.1 p.2 (Some names))) None))
    (fun error =>
       let* _ := logDbError error in
       ret (mkResult None
              (Some (match code error with
                     | Some "22P02" => "post_not_found"
                     | _ => "cannot_get_post"
                     end)))).

(** The [switch (error.code)] shared by [createPost] and [updatePost]. *)
Definition classify (fallback : string) (error : DatabaseError) : string :=
  match code error with
  | Some "23505" => "duplicate_post_title"
  | Some "23503" => "category_not_found"
  | Some "22P02" => "category_not_found"
  | _ => fallback
  end.

(** The [if (tagIds.length > 0)] block shared by both operations. *)
Definition associate (p : option Post) (tagIds : list string)
    : M (list (string * string)) :=
  let* selectedTags := query (select_tags tagIds) in
  let* rows :=
    match selectedTags with
    | [] => ret []
    | _ => let* p := deref p in ret ((fun tag => (id p, tag.1)) <$> selectedTags)
    end in
  let* _ := insert_post_tags rows in
  ret selectedTags.

(** The first statement of [createPost]: the insert of the post row. *)
Definition insertPostRow (data : CreateData) : M (list Post) :=
  let* _ := fault_check in
  let* i := fresh_uuid in
  on_db (insert_post i
           (mkPostRow (c_title data) (normalizeString (c_title data))
              (slug (c_title data)) (c_content data)
              (c_published data) (c_categoryId data))).

Definition createPost (data : CreateData) : M (Result PostData) :=
  try_catch
    (let* rows := insertPostRow data in
     let post := head rows in
     let* p := deref post in
     match truthy (categoryId p) with
     | Some c =>
         let* cs := query (select_category c) in
         let* name := deref (head cs) in
         ret (mkResult (Some (mkPostData p (Some name) None)) None)
     | None =>
         let* tags :=
           match c_tagIds data with
           | [] => ret []
           | _ => associate post (c_tagIds data)
           end in
         ret (mkResult (Some (mkPostData p None (Some (tags.*2)))) None)
     end)
    (fun error =>
       let* _ := logDbError error in
       ret (mkResult None (Some (classify "cannot_create_post" error)))).

(** The first statement of [updatePost]: the update of the post row;
    [categoryId ?? null] is the identity on [string | null]. *)
Definition updatePostRow (i : string) (data : UpdateData) : M (list Post) :=
  query (update_post i
           (mkPostRow (u_title data) (normalizeString (u_title data))
              (slug (u_title data)) (u_content data)
              (u_published data) (u_categoryId data))).

Definition updatePost (i : string) (data : UpdateData) : M (Result PostData) :=
  try_catch
    (let* rows := updatePostRow i data in
     let post := head rows in
     let* _ :=
       match u_tagIds data with
       | Some _ => let* p := deref post in query (delete_post_tags (id p))
       | None => ret tt
       end in
     let* tags :=
       match u_tagIds data with
       | Some (t :: ts) => associate post (t :: ts)
       | _ => ret []
       end in
     let* p := deref post in
     match truthy (categoryId p) with
     | Some c =>
         let* cs := query (select_category c) in
         let* name := deref (head cs) in
         ret (mkResult (Some (mkPostData p (Some name) (Some (tags.*2)))) None)
     | None => ret (mkResult (Some (mkPostData p None None)) None)
     end)
    (fun error =>
       let* _ := logDbError error in
       ret (mkResult None (Some (classify "cannot_update_post" error)))).

Definition deletePost (i : string) : M (Result string) :=
  try_catch
    (let* posts := query (delete_post i) in
     match head posts with
     | Some p => ret (mkResult (Some p) None)
     | None => throw (mkError "Post Not Found" (Some "22P02"))
     end)
    (fun error =>
       let* _ := logDbError error in
       ret (mkResult None
              (Some (match code error with
                     | Some "22P02" => "post_not_found"
                     | _ => "cannot_delete_post"
                     end)))).


(** ** The request handlers of [posts/router.ts]

    Each handler is modelled from the point where the path parameter and the
    validated body are in hand ([zValidator] and [postSchema] are not among
    the sources) to the reply it builds. *)

(** [c.json(body, status)] and [c.body(null, status)] build the reply with
    [new Response], which refuses a status outside 200..599 by throwing a
    [RangeError]. *)
Definition respond (b : Body) (s : Z) : M Reply :=
  if (200 <=? s)%Z && (s <=? 599)%Z then ret (mkReply b s)
  else throw (js_error "RangeError: status must be in the range of 200 to 599").

(** [GET /] *)
Definition listPosts : M Reply :=
  let* posts := getPosts in
  respond (PostsBody (list_view <$> posts)) OK.

(** What [GET /:id] and the first half of [PUT /:id] do with a failed
    [getPostById]. *)
Definition get_failure (i c : string) : M Reply :=
  if decide (c = "post_not_found") then
    respond (Problem "Not Found" ("Post with id '" +:+ i +:+ "' not found")
               NOT_FOUND) NOT_FOUND
  else
    respond (Problem "Unknown Error" ("Cannot get post with id '" +:+ i +:+ "'")
               (-1)) (-1).

(** [GET /:id] *)
Definition getPost (i : string) : M Reply :=
  let* r := getPostById i in
  match truthy (errorCode r) with
  | Some c => get_failure i c
  | None => let* d := deref (data r) in respond (PostBody (strip d)) OK
  end.

(** [POST /] *)
Definition postPost (input : CreateData) : M Reply :=
  let* r := createPost input in
  match truthy (errorCode r) with
  | Some c =>
      if decide (c = "duplicate_post_title") then
        respond (Problem "Conflict" ("Post '" +:+ c_title input +:+ "' existed")
                   CONFLICT) CONFLICT
      else if decide (c = "category_not_found") then
        respond (Problem "Not Found" "Category not found" NOT_FOUND) NOT_FOUND
      else
        respond (Problem "Unprocessable Entity" "Cannot create post"
                   UNPROCESSABLE_ENTITY) UNPROCESSABLE_ENTITY
  | None => respond (CreatedBody (data r)) CREATED
  end.

(** [given ?? existedPost.field] and
    [given === undefined ? existedPost.field : given]: the stored post is
    read only when the field is absent from the body. *)
Definition or_existing {A} (given : option A) (existed : option PostData)
    (field : PostData -> A) : M A :=
  match given with
  | Some a => ret a
  | None => let* e := deref existed in ret (field e)
  end.

(** [PUT /:id] *)
Definition putPost (i : string) (input : PutBody) : M Reply :=
  let* got := getPostById i in
  match truthy (errorCode got) with
  | Some c => get_failure i c
  | None =>
      let* t := or_existing (pb_title input) (data got) (fun e => title (post e)) in
      let* c := or_existing (pb_content input) (data got) (fun e => content (post e)) in
      let* cat := or_existing (pb_categoryId input) (data got)
                    (fun e => categoryId (post e)) in
      let* pub := or_existing (pb_published input) (data got)
                    (fun e => published (post e)) in
      let* r := updatePost i (mkUpdateData t c cat pub (pb_tagIds input)) in
      match truthy (errorCode r) with
      | Some c =>
          if decide (c = "duplicate_post_title") then
            respond (Problem "Conflict"
                       ("Post '" +:+ default "undefined" (pb_title input)
                        +:+ "' existed") CONFLICT) CONFLICT
          else if decide (c = "category_not_found") then
            respond (Problem "Not Found" "Category not found" NOT_FOUND) NOT_FOUND
          else
            respond (Problem "Unprocessable Entity" "Cannot update post"
                       UNPROCESSABLE_ENTITY) UNPROCESSABLE_ENTITY
      | None => let* d := deref (data r) in respond (PostBody (strip d)) OK
      end
  end.

(** [DELETE /:id] *)
Definition deletePostReply (i : string) : M Reply :=
  let* r := deletePost i in
  match truthy (errorCode r) with
  | Some c =>
      if decide (c = "post_not_found") then
        respond (Problem "Not Found" ("Post with id '" +:+ i +:+ "' not found")
                   NOT_FOUND) NOT_FOUND
      else
        respond (Problem "Unknown Error"
                   ("Cannot delete post with id '" +:+ i +:+ "'") (-1)) (-1)
  | None => respond EmptyBody NO_CONTENT
  end.


(** * Properties *)

(** ** The fault schedule *)

Lemma quiet_refl fs : quiet fs fs.
Proof. exists 0. split; [done|]. intros e He. by apply elem_of_nil in He. Qed.

Lemma quiet_step fs fs' :
  head_fault fs = None -> quiet (tail fs) fs' -> quiet fs fs'.
Proof.
  intros Hh [n [Hd Hn]]. destruct fs as [|[e|] fs]; simpl in *; try done.
  - exists n. by destruct n.
  - exists (S n). split; [done|]. intros e He. simpl in He.
    apply elem_of_cons in He as [He|He]; [done|]. by eapply Hn.
Qed.

(** ** The order of result rows *)

Lemma shuffle_perm {A} (ks : list nat) (l : list A) : shuffle ks l ≡ₚ l.
Proof.
  revert ks. induction l as [|x l IH]; intros ks; [done|].
  simpl. rewrite <- Permutation_middle, take_drop. by rewrite IH.
Qed.

Lemma shuffle_nil {A} (ks : list nat) : shuffle ks (@nil A) = [].
Proof. done. Qed.

Lemma shuffle_any {A} (l l' : list A) : l' ≡ₚ l -> ∃ ks, shuffle ks l = l'.
Proof.
  revert l'. induction l as [|x l IH]; intros l' Hp.
  - apply Permutation_nil_r in Hp as ->. by exists [].
  - assert (Hx : x ∈ l') by (rewrite Hp; apply list_elem_of_here).
    apply list_elem_of_split in Hx as (l1 & l2 & ->).
    symmetry in Hp. apply Permutation_cons_app_inv in Hp. symmetry in Hp.
    destruct (IH _ Hp) as [ks Hks]. exists (length l1 :: ks). simpl.
    by rewrite Hks, take_app_length, drop_app_length.
Qed.

Lemma chosen_perm ids d : chosen ids d ≡ₚ selected ids d.
Proof. apply shuffle_perm. Qed.

Lemma tag_names_of_perm p d : tag_names_of p d ≡ₚ tag_join p d.
Proof. apply shuffle_perm. Qed.

Ltac unfold_ops :=
  unfold updatePost, createPost, getPostById, deletePost, getPosts,
    insertPostRow, updatePostRow, associate, insert_post_tags,
    try_catch, query, fault_check, fresh_uuid, on_db, logDbError, deref,
    bind, ret, throw in *.
Ltac unfold_stmts :=
  unfold update_post, insert_post, delete_post, delete_post_tags, select_tags,
    select_category, select_post, select_tag_names, find_many,
    cascade_postsToTags in *.
Ltac split_cases := repeat (case_match; simplify_eq/=).
Ltac quiet_tac :=
  repeat first [ apply quiet_refl | apply quiet_step; [ done | simpl ] ].

Lemma classify_in fallback (errors : list string) e :
  fallback ∈ errors -> "duplicate_post_title" ∈ errors ->
  "category_not_found" ∈ errors -> classify fallback e ∈ errors.
Proof.
  intros Hf Hd Hc. unfold classify.
  destruct (code e) as [c|]; [|done].
  repeat (case_match; try done).
Qed.

Lemma getPostById_total i w :
  ∃ r w', getPostById i w = (Returned r, w') ∧ domain_result get_errors r
          ∧ (errorCode r = None -> quiet (faults w) (faults w')).
Proof.
  unfold_ops. unfold_stmts. unfold next_fault.
  destruct (head_fault (faults w)) eqn:Hf1; simpl.
  { eexists _, _. split; [done|]. split; [|done]. unfold domain_result, get_errors; simpl.
    split; [|done]. repeat case_match; set_solver. }
  destruct (valid_id i); simpl.
  2:{ eexists _, _. split; [done|]. split; [|done]. unfold domain_result, get_errors; simpl.
      split; [|done]. set_solver. }
  destruct (postTable (db w) !! i) as [row|]; simpl.
  2:{ eexists _, _. split; [done|]. split; [|done]. unfold domain_result, get_errors; simpl.
      split; [|done]. set_solver. }
  destruct (head_fault (tail (faults w))) eqn:Hf2; simpl.
  { eexists _, _. split; [done|]. split; [|done]. unfold domain_result, get_errors; simpl.
    split; [|done]. repeat case_match; set_solver. }
  eexists _, _. split; [done|]. split; [by eexists|]. intros _. simpl. quiet_tac.
Qed.

Ltac domain_tac :=
  unfold domain_result, get_errors, create_errors, update_errors, delete_errors;
  simpl;
  first [ by eexists
        | split; [ first [ apply classify_in; set_solver
                         | repeat case_match; set_solver ] | done ] ].

Ltac total_tac :=
  unfold_ops; unfold_stmts; unfold next_fault;
  split_cases;
  (eexists _, _; split; [ reflexivity | ]);
  (split; [ domain_tac | simpl; first [ done | intros _; quiet_tac ] ]).

Lemma createPost_total data w :
  ∃ r w', createPost data w = (Returned r, w') ∧ domain_result create_errors r
          ∧ (errorCode r = None -> quiet (faults w) (faults w')).
Proof. total_tac. Qed.

Lemma updatePost_total i data w :
  ∃ r w', updatePost i data w = (Returned r, w') ∧ domain_result update_errors r
          ∧ (errorCode r = None -> quiet (faults w) (faults w')).
Proof. total_tac. Qed.

Lemma deletePost_total i w :
  ∃ r w', deletePost i w = (Returned r, w') ∧ domain_result delete_errors r
          ∧ (errorCode r = None -> quiet (faults w) (faults w')).
Proof. total_tac. Qed.

(** ** The association rows written by [associate] *)

Lemma elem_of_selected ids d t n :
  (t, n) ∈ selected ids d ↔ t ∈ ids ∧ tagTable d !! t = Some n.
Proof.
  unfold selected. rewrite list_elem_of_filter, elem_of_map_to_list. done.
Qed.

Lemma selected_nil d : selected [] d = [].
Proof.
  unfold selected. induction (map_to_list (tagTable d)) as [|x xs IH]; [done|].
  rewrite filter_cons. destruct (decide (x.1 ∈ [])) as [Hx|_]; [|done].
  by apply elem_of_nil in Hx.
Qed.

Lemma elem_of_chosen ids d t n :
  (t, n) ∈ chosen ids d ↔ t ∈ ids ∧ tagTable d !! t = Some n.
Proof. rewrite chosen_perm. apply elem_of_selected. Qed.

Lemma chosen_nil d : chosen [] d = [].
Proof. unfold chosen. by rewrite selected_nil. Qed.

Lemma chosen_NoDup ids d : NoDup (chosen ids d).
Proof.
  rewrite chosen_perm. unfold selected. apply NoDup_filter, NoDup_map_to_list.
Qed.

Lemma links_NoDup (i : string) ids d :
  NoDup ((fun t : string * string => (i, t.1)) <$> chosen ids d).
Proof.
  apply NoDup_fmap_2_strong.
  - intros [t1 n1] [t2 n2] H1 H2 Heq. simpl in Heq. simplify_eq.
    apply elem_of_chosen in H1 as [_ H1], H2 as [_ H2]. congruence.
  - apply chosen_NoDup.
Qed.

Lemma elem_of_links (i : string) ids d (p t : string) :
  (p, t) ∈ (fun x : string * string => (i, x.1)) <$> chosen ids d
  ↔ p = i ∧ t ∈ ids ∧ is_Some (tagTable d !! t).
Proof.
  rewrite list_elem_of_fmap. split.
  - intros [[t' n] [Heq Hin]]. simpl in Heq. simplify_eq.
    apply elem_of_chosen in Hin as [Hin Hl]. eauto.
  - intros [-> [Hin [n Hl]]]. exists (t, n). split; [done|].
    by apply elem_of_chosen.
Qed.

Lemma count_NoDup {A} `{EqDecision A} (l : list A) (x : A) :
  NoDup l ->
  length (filter (fun y => y = x) l) = if decide (x ∈ l) then 1 else 0.
Proof.
  induction 1 as [|y l Hy Hnd IH]; [done|].
  rewrite filter_cons. destruct (decide (y = x)) as [->|Hne]; simpl.
  - rewrite decide_True by left. f_equal.
    rewrite IH. by rewrite decide_False.
  - rewrite IH. destruct (decide (x ∈ l)) as [Hin|Hin].
    + rewrite decide_True; [done|]. by right.
    + rewrite decide_False; [done|]. intros [?|?]%elem_of_cons; congruence.
Qed.

Lemma rows_of_replaced (i : string) (old new : list (string * string)) :
  (∀ r, r ∈ new -> r.1 = i) ->
  rows_of i (filter (fun r => r.1 ≠ i) old ++ new) = new.
Proof.
  intros Hnew. unfold rows_of. rewrite filter_app.
  replace (filter (fun r : string * string => r.1 = i)
             (filter (fun r : string * string => r.1 ≠ i) old)) with (@nil (string * string)).
  - simpl. induction new as [|r new IH]; [done|].
    rewrite filter_cons, decide_True by (apply Hnew; left).
    f_equal. apply IH. intros r' Hr'. apply Hnew. by right.
  - symmetry. induction old as [|r old IH]; [done|].
    rewrite filter_cons. destruct (decide (r.1 ≠ i)) as [Hr|Hr]; [|done].
    rewrite filter_cons, decide_False by done. done.
Qed.

Lemma elem_of_tagIds_of p d t :
  t ∈ tagIds_of p d ↔ (p, t) ∈ postsToTags d.
Proof.
  unfold tagIds_of, rows_of. rewrite list_elem_of_fmap. split.
  - intros [[p' t'] [-> [Hp Hin]%list_elem_of_filter]]. simpl in *. by subst.
  - intros Hin. exists (p, t). split; [done|]. by apply list_elem_of_filter.
Qed.

(** ** What a successful [updatePost] did to the store *)

Lemma updatePost_success i data w r w' :
  updatePost i data w = (Returned r, w') ->
  errorCode r = None ->
  is_Some (postTable (db w) !! i) ∧
  tagTable (db w') = tagTable (db w) ∧
  categoryTable (db w') = categoryTable (db w) ∧
  postsToTags (db w') =
    match u_tagIds data with
    | None => postsToTags (db w)
    | Some ids =>
        (filter (fun r => r.1 ≠ i) (postsToTags (db w))
         ++ ((fun t => (i, t.1)) <$> chosen ids (db w)))%list
    end.
Proof.
  intros H Hr. unfold_ops. unfold_stmts.
  split_cases; try done.
  all: repeat split; try done.
  all: first
    [ by rewrite (chosen_nil (db w)), app_nil_r
    | unfold chosen, selected in *; simpl in *;
      match goal with
      | Hs : shuffle _ _ = _ |- _ => by rewrite Hs
      end ].
Qed.

(** C7. A successful [updatePost] that was given [tagIds] (the empty array
    included) leaves the post associated with exactly the supplied tag ids
    that exist in the tag table, whatever it was associated with before; a
    successful [updatePost] without [tagIds] leaves the association rows of
    the post as they were. *)
Theorem updatePost_replaces_tag_set i data w r w' :
  updatePost i data w = (Returned r, w') ->
  errorCode r = None ->
  match u_tagIds data with
  | Some ids =>
      ∀ t, t ∈ tagIds_of i (db w') ↔ t ∈ ids ∧ is_Some (tagTable (db w) !! t)
  | None => rows_of i (postsToTags (db w')) = rows_of i (postsToTags (db w))
  end.
Proof.
  intros Hrun Hok.
  destruct (updatePost_success _ _ _ _ _ Hrun Hok) as (_ & _ & _ & Hrows).
  destruct (u_tagIds data) as [ids|]; [|by rewrite Hrows].
  intros t. rewrite elem_of_tagIds_of, Hrows, elem_of_app.
  rewrite list_elem_of_filter, elem_of_links. simpl.
  split; [intros [[Hne _]|(_ & Hin & Hex)]; [congruence | done] | by right].
Qed.

(** C9. Two successful [updatePost] calls in a row on the same post with the
    same [tagIds] leave exactly one association row for every tag of the
    list that exists and none for any other tag, and the second call leaves
    the rows of the post as the first one wrote them. *)
Theorem updatePost_twice_same_tagIds i data ids w0 r1 w1 r2 w2 :
  u_tagIds data = Some ids ->
  updatePost i data w0 = (Returned r1, w1) -> errorCode r1 = None ->
  updatePost i data w1 = (Returned r2, w2) -> errorCode r2 = None ->
  (∀ t, link_count i t (db w2) =
        if decide (t ∈ ids ∧ is_Some (tagTable (db w0) !! t)) then 1 else 0)
  ∧ rows_of i (postsToTags (db w2)) = rows_of i (postsToTags (db w1)).
Proof.
  intros Hids Hrun1 Hok1 Hrun2 Hok2.
  destruct (updatePost_success _ _ _ _ _ Hrun1 Hok1) as (_ & Htags1 & _ & Hrows1).
  destruct (updatePost_success _ _ _ _ _ Hrun2 Hok2) as (_ & _ & _ & Hrows2).
  rewrite Hids in Hrows1, Hrows2.
  assert (Hsel : chosen ids (db w1) = chosen ids (db w0))
    by (unfold chosen, selected; by rewrite Htags1).
  rewrite Hsel in Hrows2.
  assert (Hmine : ∀ r0 : string * string,
            r0 ∈ (fun t : string * string => (i, t.1)) <$> chosen ids (db w0) ->
            r0.1 = i).
  { intros [p t] Hin. by apply elem_of_links in Hin as [-> _]. }
  split.
  - intros t. unfold link_count.
    transitivity (length (filter (fun r0 => r0 = (i, t))
                            (rows_of i (postsToTags (db w2))))).
    { unfold rows_of. rewrite list_filter_filter. f_equal.
      apply list_filter_iff. intros [p t']. simpl.
      split; [intros Heq; split; [done | by simplify_eq] | by intros [Heq _]]. }
    rewrite Hrows2, rows_of_replaced by done.
    rewrite count_NoDup by apply links_NoDup.
    destruct (decide (t ∈ ids ∧ is_Some (tagTable (db w0) !! t))) as [Hin|Hout].
    + rewrite decide_True; [done|]. apply elem_of_links. by destruct Hin.
    + rewrite decide_False; [done|]. rewrite elem_of_links.
      intros (_ & Ht & Hex). by apply Hout.
  - rewrite Hrows2, Hrows1. by rewrite !rows_of_replaced.
Qed.

(** ** [createPost] *)

(** C2. When the identifier syntax rejects the empty string, a [createPost]
    call that is given a [categoryId] inserts no row into the post-tag
    association table, whatever [tagIds] it is given and however the call
    ends: tags are resolved and associated only in the branch without a
    category. *)
Theorem createPost_with_category_associates_nothing data c w :
  valid_id "" = false ->
  c_categoryId data = Some c ->
  postsToTags (db (createPost data w).2) = postsToTags (db w).
Proof.
  intros Hempty Hcat. unfold_ops. unfold_stmts. rewrite Hcat. simpl.
  destruct (next_fault w); simpl; [done|].
  destruct (valid_id c) eqn:Hc; simpl; [|done].
  repeat (case_match; simpl; try done).
  all: unfold truthy in *; simplify_eq/=.
  all: repeat (case_match; simplify_eq/=); congruence.
Qed.

(** ** [deletePost] *)

(** C6. After a successful [deletePost] of a post, no row of the association
    table carries its id, and the post row is gone. *)
Theorem deletePost_leaves_no_association i w r w' :
  deletePost i w = (Returned r, w') ->
  errorCode r = None ->
  rows_of i (postsToTags (db w')) = [] ∧ postTable (db w') !! i = None.
Proof.
  intros Hrun Hok. unfold_ops. unfold_stmts.
  split_cases; try done.
  match goal with |- rows_of ?j _ = _ ∧ _ => rename j into i end.
  split; [|apply lookup_delete_eq].
  unfold rows_of. induction (postsToTags (db w)) as [|x xs IH]; [done|].
  rewrite filter_cons. destruct (decide (x.1 ≠ i)) as [Hx|Hx]; [|done].
  by rewrite filter_cons, decide_False.
Qed.

(** ** [getPostById] *)

Lemma elem_of_tag_names_of p d n :
  n ∈ tag_names_of p d ↔ ∃ t, (p, t) ∈ postsToTags d ∧ tagTable d !! t = Some n.
Proof.
  rewrite tag_names_of_perm. unfold tag_join. rewrite list_elem_of_bind. split.
  - intros [[t n'] [Hin Ht]]. simpl in Hin.
    apply list_elem_of_fmap in Hin as [[p' t'] [-> Hin]].
    apply list_elem_of_filter in Hin as [[??] Hin]. simpl in *. subst.
    exists t. split; [done|]. by apply elem_of_map_to_list.
  - intros [t [Hin Ht]]. exists (t, n). split; [|by apply elem_of_map_to_list].
    simpl. apply list_elem_of_fmap. exists (p, t). split; [done|].
    by apply list_elem_of_filter.
Qed.

(** The tag join of [getPostById] finds, up to the order of the rows, one
    name for each association row of the post whose tag exists. *)

Lemma bind_nil_all {A B} (f : A -> list B) (l : list A) :
  (∀ x, x ∈ l -> f x = []) -> l ≫= f = [].
Proof.
  induction l as [|a l IH]; intros Hf; [done|].
  rewrite bind_cons, (Hf a) by left. apply IH. intros x Hx. apply Hf. by right.
Qed.

Lemma bind_app_perm {A B} (f g : A -> list B) (l : list A) :
  l ≫= (fun x => (f x ++ g x)%list) ≡ₚ ((l ≫= f) ++ (l ≫= g))%list.
Proof.
  induction l as [|a l IH]; [done|].
  rewrite !bind_cons, IH, <- !app_assoc. f_equiv.
  rewrite !app_assoc. f_equiv. apply Permutation_app_comm.
Qed.

Lemma bind_perm_in {A B} (f g : A -> list B) (l : list A) :
  (∀ x, x ∈ l -> f x ≡ₚ g x) -> l ≫= f ≡ₚ l ≫= g.
Proof.
  induction l as [|a l IH]; intros Hfg; [done|].
  rewrite !bind_cons, (Hfg a) by left. f_equiv.
  apply IH. intros x Hx. apply Hfg. by right.
Qed.

Lemma names_of_key (m : gmap string string) (k : string) :
  map_to_list m ≫= (fun t => if decide (k = t.1) then [t.2] else [])
  ≡ₚ option_list (m !! k).
Proof.
  induction m as [|j n m Hj IH] using map_ind.
  - by rewrite map_to_list_empty, lookup_empty.
  - rewrite map_to_list_insert, bind_cons, IH by done. simpl.
    destruct (decide (k = j)) as [->|Hne].
    + by rewrite lookup_insert_eq, Hj.
    + by rewrite lookup_insert_ne.
Qed.

Lemma tag_join_perm p d : tag_join p d ≡ₚ tags_through_rows p d.
Proof.
  unfold tag_join, tags_through_rows, rows_of.
  induction (postsToTags d) as [|r rows IH].
  - simpl. by rewrite bind_nil_all.
  - transitivity
      ((map_to_list (tagTable d) ≫= fun t =>
          if decide (r.2 = t.1 ∧ r.1 = p) then [t.2] else [])
       ++ (map_to_list (tagTable d) ≫= fun t =>
             (fun _ => t.2) <$>
               filter (fun r0 : string * string => r0.2 = t.1 ∧ r0.1 = p) rows))%list.
    { rewrite <- bind_app_perm. apply bind_perm_in. intros t _.
      rewrite filter_cons. by destruct (decide (r.2 = t.1 ∧ r.1 = p)). }
    rewrite IH, filter_cons.
    destruct (decide (r.1 = p)) as [Hp|Hp].
    + assert (Hkey : map_to_list (tagTable d) ≫= (fun t =>
                         if decide (r.2 = t.1 ∧ r.1 = p) then [t.2] else [])
                       ≡ₚ option_list (tagTable d !! r.2)).
      { rewrite <- names_of_key. apply bind_perm_in. intros t _.
        destruct (decide (r.2 = t.1)) as [Ht|Ht].
        - by rewrite decide_True.
        - rewrite decide_False; [done|]. by intros [? _]. }
      rewrite Hkey. simpl. by destruct (tagTable d !! r.2).
    + rewrite bind_nil_all; [done|]. intros t _.
      rewrite decide_False; [done|]. by intros [_ ?].
Qed.

(** C5. [getPostById]: when no statement is failed by the engine and the id
    is rejected as an invalid identifier or matches no row, the result is
    [(null, post_not_found)]; when the engine fails one of the two
    statements with any error other than the invalid-identifier one, the
    result is [(null, cannot_get_post)]; on success the data is the row of
    that id with its category id, the name of the category of that id (none
    without a category) and, in some order, one tag name for each
    association row of the post; and a call on a stored post with no failing
    statement does succeed. *)
Theorem getPostById_outcomes i w :
  (next_fault w = None ->
   valid_id i = false ∨ postTable (db w) !! i = None ->
   (getPostById i w).1 = Returned (mkResult None (Some "post_not_found")))
  ∧ (∀ e, code e ≠ Some "22P02" ->
       next_fault w = Some e
       ∨ (next_fault w = None ∧ valid_id i = true
          ∧ is_Some (postTable (db w) !! i)
          ∧ head_fault (tail (faults w)) = Some e) ->
       (getPostById i w).1 = Returned (mkResult None (Some "cannot_get_post")))
  ∧ (∀ r, (getPostById i w).1 = Returned r -> errorCode r = None ->
       ∃ row names,
         postTable (db w) !! i = Some row
         ∧ data r = Some (mkPostData
                            (mkPost i (r_title row) (r_slug row) (r_content row)
                               (r_published row) (r_categoryId row))
                            (r_categoryId row ≫= fun c => categoryTable (db w) !! c)
                            (Some names))
         ∧ names ≡ₚ omap (fun a : string * string => tagTable (db w) !! a.2)
                      (filter (fun a : string * string => a.1 = i)
                         (postsToTags (db w))))
  ∧ (∀ row, postTable (db w) !! i = Some row -> valid_id i = true ->
       next_fault w = None -> head_fault (tail (faults w)) = None ->
       ∃ r, (getPostById i w).1 = Returned r ∧ errorCode r = None).
Proof.
  unfold_ops. unfold_stmts. unfold next_fault. repeat split.
  - intros Hf [Hbad|Hnone]; rewrite Hf; simpl.
    + by rewrite Hbad.
    + destruct (valid_id i); [|done]. by rewrite Hnone.
  - intros e He [Hf|(Hf & Hv & [row Hrow] & Hf2)]; rewrite Hf; simpl.
    + destruct (code e) as [c|]; [|done].
      destruct (decide (c = "22P02")) as [->|Hc]; [done|].
      repeat (case_match; try done).
    + rewrite Hv, Hrow. simpl. rewrite Hf2. simpl.
      destruct (code e) as [c|]; [|done].
      destruct (decide (c = "22P02")) as [->|Hc]; [done|].
      repeat (case_match; try done).
  - intros r Hrun Hok.
    destruct (head_fault (faults w)); simpl in *; [by simplify_eq|].
    destruct (valid_id i); simpl in *; [|by simplify_eq].
    destruct (postTable (db w) !! i) as [row|]; simpl in *; [|by simplify_eq].
    destruct (head_fault (tail (faults w))); simpl in *; simplify_eq.
    exists row, (tag_names_of i (db w)). split; [done|]. split; [done|].
    rewrite tag_names_of_perm. apply tag_join_perm.
  - intros row Hrow Hv Hf Hf2. rewrite Hf. simpl. rewrite Hv, Hrow. simpl.
    rewrite Hf2. simpl. by eexists.
Qed.

(** ** Failures and the store *)

(** C3, as the code has it.  A [createPost] or [updatePost] call whose
    first statement (the insert, respectively the update, of the post row)
    fails returns the classified error and leaves every table as it was.
    The statements of a call are not wrapped in a transaction: once the
    first statement has gone through, the post table stays as that
    statement left it, however the rest of the call ends. *)
Theorem first_statement_failure_leaves_store cdata i udata w e w1 :
  (insertPostRow cdata w = (Thrown e, w1) ->
   ∃ w', createPost cdata w
         = (Returned (mkResult None (Some (classify "cannot_create_post" e))), w')
         ∧ db w' = db w)
  ∧ (updatePostRow i udata w = (Thrown e, w1) ->
     ∃ w', updatePost i udata w
           = (Returned (mkResult None (Some (classify "cannot_update_post" e))), w')
           ∧ db w' = db w)
  ∧ (∀ rows, insertPostRow cdata w = (Returned rows, w1) ->
       postTable (db (createPost cdata w).2) = postTable (db w1))
  ∧ (∀ rows, updatePostRow i udata w = (Returned rows, w1) ->
       postTable (db (updatePost i udata w).2) = postTable (db w1)).
Proof.
  split; [|split; [|split]].
  - intros Hfirst. unfold createPost, try_catch, bind at 1. rewrite Hfirst.
    exists w1. split; [done|].
    clear -Hfirst. unfold_ops. unfold_stmts. split_cases; done.
  - intros Hfirst. unfold updatePost, try_catch, bind at 1. rewrite Hfirst.
    exists w1. split; [done|].
    clear -Hfirst. unfold_ops. unfold_stmts. split_cases; done.
  - intros rows Hfirst. unfold createPost, try_catch, bind at 1. rewrite Hfirst.
    clear Hfirst. unfold_ops. unfold_stmts.
    repeat (case_match; simplify_eq/=; try done).
  - intros rows Hfirst. unfold updatePost, try_catch, bind at 1. rewrite Hfirst.
    clear Hfirst. unfold_ops. unfold_stmts.
    repeat (case_match; simplify_eq/=; try done).
Qed.

(** C10, as the code has it.  An [updatePost] call whose id matches no post
    row and whose update statement is not failed by the engine changes no
    table and returns [(null, cannot_update_post)] when its id and
    [categoryId] are well-formed identifiers; when one of them is not, the
    store rejects the statement and the call returns
    [(null, category_not_found)]. *)
Theorem updatePost_unknown_id i data w :
  next_fault w = None ->
  postTable (db w) !! i = None ->
  (updatePost i data w).1
  = Returned (mkResult None
      (Some (if valid_id i && valid_ref (u_categoryId data)
             then "cannot_update_post" else "category_not_found")))
  ∧ db (updatePost i data w).2 = db w.
Proof.
  intros Hf Hrow. unfold_ops. unfold_stmts. simpl.
  rewrite Hf. simpl.
  destruct (valid_id i && valid_ref (u_categoryId data)); simpl; [|done].
  rewrite Hrow. simpl.
  destruct (u_tagIds data) as [ids|]; simpl; done.
Qed.

(** C4, as the code has it.  Each of the four guarded operations returns,
    in every world, a result object whose error code is [null] or a kind of
    that operation's closed set, and a [null] error code means that no
    statement of the call was failed by the engine: a failure raised in
    [getPostById], [createPost], [updatePost] or [deletePost] never leaves
    the operation as an exception.  [getPosts] has no handler: a failure of
    its statement is thrown to the caller. *)
Theorem guarded_operations_return_domain_results i cdata udata w :
  (∃ r w', getPostById i w = (Returned r, w') ∧ domain_result get_errors r
           ∧ (errorCode r = None -> quiet (faults w) (faults w')))
  ∧ (∃ r w', createPost cdata w = (Returned r, w') ∧ domain_result create_errors r
             ∧ (errorCode r = None -> quiet (faults w) (faults w')))
  ∧ (∃ r w', updatePost i udata w = (Returned r, w') ∧ domain_result update_errors r
             ∧ (errorCode r = None -> quiet (faults w) (faults w')))
  ∧ (∃ r w', deletePost i w = (Returned r, w') ∧ domain_result delete_errors r
             ∧ (errorCode r = None -> quiet (faults w) (faults w')))
  ∧ (∀ e, next_fault w = Some e -> getPosts w = (Thrown e, advance w)).
Proof.
  split; [apply getPostById_total|].
  split; [apply createPost_total|].
  split; [apply updatePost_total|].
  split; [apply deletePost_total|].
  intros e He. unfold getPosts, query, fault_check, bind. by rewrite He.
Qed.

(** * Further properties of the repository and of its handlers *)

(** ** How [getPostById] runs *)

Definition get_error (e : DatabaseError) : Result PostData :=
  mkResult None
    (Some match code e with
          | Some "22P02" => "post_not_found"
          | _ => "cannot_get_post"
          end).

Definition get_found (i : string) (row : PostRow) (d : Db) : Result PostData :=
  mkResult
    (Some (mkPostData (to_post i row)
             (r_categoryId row ≫= fun c => categoryTable d !! c)
             (Some (tag_names_of i d)))) None.

Lemma getPostById_run i w :
  getPostById i w =
  match next_fault w with
  | Some e => (Returned (get_error e), advance w)
  | None =>
      if valid_id i then
        match postTable (db w) !! i with
        | None => (Returned (mkResult None (Some "post_not_found")), advance w)
        | Some row =>
            match head_fault (tail (faults w)) with
            | Some e => (Returned (get_error e), advance (advance w))
            | None => (Returned (get_found i row (db w)), advance (advance w))
            end
        end
      else (Returned (mkResult None (Some "post_not_found")), advance w)
  end.
Proof.
  unfold_ops. unfold_stmts. unfold next_fault.
  destruct (head_fault (faults w)); simpl; [done|].
  destruct (valid_id i); simpl; [|done].
  destruct (postTable (db w) !! i) as [row|]; simpl; [|done].
  destruct (head_fault (tail (faults w))); simpl; done.
Qed.

(** ** What the first statements and the successful calls wrote *)

Definition new_row (data : UpdateData) : PostRow :=
  mkPostRow (u_title data) (normalizeString (u_title data)) (slug (u_title data))
    (u_content data) (u_published data) (u_categoryId data).

Lemma updatePost_success_row i u w r w' :
  updatePost i u w = (Returned r, w') ->
  errorCode r = None ->
  valid_id i = true
  ∧ postTable (db w') = <[i := new_row u]> (postTable (db w))
  ∧ ∃ d, data r = Some d ∧ post d = to_post i (new_row u).
Proof.
  intros H Hr. unfold_ops. unfold_stmts. unfold new_row.
  split_cases; try done.
  all: match goal with
       | Hv : negb (valid_id ?j && _) = false |- _ =>
           destruct (valid_id j) eqn:Hi; simpl in Hv; [|done]
       end.
  all: repeat split; try done; by eexists.
Qed.

(** ** Rows of other posts *)

Lemma rows_of_app (j : string) (l1 l2 : list (string * string)) :
  rows_of j (l1 ++ l2) = (rows_of j l1 ++ rows_of j l2)%list.
Proof. apply filter_app. Qed.

Lemma rows_of_cons_other (i j x : string) (l : list (string * string)) :
  j ≠ i -> rows_of j ((i, x) :: l) = rows_of j l.
Proof.
  intros Hne. unfold rows_of. rewrite filter_cons.
  destruct (decide ((i, x).1 = j)) as [Heq|_]; [|done]. simpl in Heq. congruence.
Qed.

Lemma rows_of_links_other (i j : string) (l : list (string * string)) :
  j ≠ i -> rows_of j ((fun t : string * string => (i, t.1)) <$> l) = [].
Proof.
  intros Hne. induction l as [|t l IH]; [done|].
  rewrite fmap_cons, rows_of_cons_other by done. exact IH.
Qed.

Lemma rows_of_without_other (i j : string) (l : list (string * string)) :
  j ≠ i -> rows_of j (filter (fun r => r.1 ≠ i) l) = rows_of j l.
Proof.
  intros Hne. unfold rows_of. induction l as [|r l IH]; [done|].
  rewrite !filter_cons.
  destruct (decide (r.1 ≠ i)) as [Hr|Hr]; destruct (decide (r.1 = j)) as [Hj|Hj].
  - rewrite filter_cons, decide_True by done. by f_equal.
  - rewrite filter_cons, decide_False by done. done.
  - exfalso. apply Hr. congruence.
  - done.
Qed.

Ltac other_rows :=
  simpl;
  rewrite ?rows_of_app, ?rows_of_cons_other, ?rows_of_links_other,
    ?rows_of_without_other, ?app_nil_r by done;
  rewrite ?lookup_insert_ne, ?lookup_delete_ne by done;
  try done.

Lemma try_catch_world {A} (body : M A) (handler : DatabaseError -> M A) w :
  (∀ e w1, (handler e w1).2 = w1) ->
  (try_catch body handler w).2 = (body w).2.
Proof.
  intros Hh. unfold try_catch. destruct (body w) as [[a|e] w1]; [done|].
  apply Hh.
Qed.

Ltac final_world :=
  unfold updatePost, createPost, getPostById, deletePost;
  rewrite try_catch_world by done;
  unfold_ops; unfold_stmts.

(** X1. [updatePost] and [deletePost] touch one post only: whatever the
    call is given and however it ends, the row and the association rows of
    every other post are as before. *)
Theorem update_and_delete_touch_one_post i u w j :
  j ≠ i ->
  (postTable (db (updatePost i u w).2) !! j = postTable (db w) !! j
   ∧ rows_of j (postsToTags (db (updatePost i u w).2))
     = rows_of j (postsToTags (db w)))
  ∧ (postTable (db (deletePost i w).2) !! j = postTable (db w) !! j
     ∧ rows_of j (postsToTags (db (deletePost i w).2))
       = rows_of j (postsToTags (db w))).
Proof.
  intros Hne. split.
  - final_world.
    repeat (case_match; simplify_eq/=; try done); split; other_rows.
  - final_world.
    repeat (case_match; simplify_eq/=; try done); split; other_rows.
Qed.

(** X2. No operation of the repository writes to the category table or to
    the tag table, and the two reads write to no table at all. *)
Theorem categories_and_tags_are_never_written c i u w :
  (categoryTable (db (createPost c w).2) = categoryTable (db w)
   ∧ tagTable (db (createPost c w).2) = tagTable (db w))
  ∧ (categoryTable (db (updatePost i u w).2) = categoryTable (db w)
     ∧ tagTable (db (updatePost i u w).2) = tagTable (db w))
  ∧ (categoryTable (db (deletePost i w).2) = categoryTable (db w)
     ∧ tagTable (db (deletePost i w).2) = tagTable (db w))
  ∧ db (getPostById i w).2 = db w
  ∧ db (getPosts w).2 = db w.
Proof.
  repeat split.
  all: try final_world.
  all: unfold_ops; unfold_stmts.
  all: repeat (case_match; simplify_eq/=; try done).
Qed.

(** ** [deletePost], and reading after a write *)

Definition delete_error (e : DatabaseError) : Result string :=
  mkResult None
    (Some match code e with
          | Some "22P02" => "post_not_found"
          | _ => "cannot_delete_post"
          end).

Lemma deletePost_run i w :
  deletePost i w =
  match next_fault w with
  | Some e => (Returned (delete_error e), advance w)
  | None =>
      if valid_id i then
        match postTable (db w) !! i with
        | None => (Returned (mkResult None (Some "post_not_found")), advance w)
        | Some _ =>
            (Returned (mkResult (Some i) None),
             set_db (cascade_postsToTags i
                       (set_postTable (delete i (postTable (db w))) (db w)))
               (advance w))
        end
      else (Returned (mkResult None (Some "post_not_found")), advance w)
  end.
Proof.
  unfold_ops. unfold_stmts. unfold next_fault.
  destruct (head_fault (faults w)); simpl; [done|].
  destruct (valid_id i); simpl; [|done].
  destruct (postTable (db w) !! i) as [row|]; simpl; done.
Qed.

(** X3. [deletePost] of an id that the store rejects as malformed or that
    matches no post row, with no failure of the engine, answers
    [(null, post_not_found)], runs one statement and changes no table. *)
Theorem deletePost_unknown_id i w :
  next_fault w = None ->
  valid_id i = false ∨ postTable (db w) !! i = None ->
  deletePost i w = (Returned (mkResult None (Some "post_not_found")), advance w).
Proof.
  intros Hf Hno. rewrite deletePost_run, Hf.
  destruct Hno as [Hbad|Hnone].
  - by rewrite Hbad.
  - rewrite Hnone. by destruct (valid_id i).
Qed.

(** X4. Once a post is deleted it is gone for the repository: after a
    successful [deletePost], a [getPostById] and a second [deletePost] of the
    same id (not failed by the engine) both answer
    [(null, post_not_found)]. *)
Theorem deleted_post_is_not_found i w r w' :
  deletePost i w = (Returned r, w') ->
  errorCode r = None ->
  next_fault w' = None ->
  (getPostById i w').1 = Returned (mkResult None (Some "post_not_found"))
  ∧ (deletePost i w').1 = Returned (mkResult None (Some "post_not_found")).
Proof.
  intros Hrun Hok Hf. rewrite deletePost_run in Hrun.
  assert (Hgone : postTable (db w') !! i = None).
  { destruct (next_fault w); [by simplify_eq|].
    destruct (valid_id i); [|by simplify_eq].
    destruct (postTable (db w) !! i); simplify_eq;
      simpl; first [done | apply lookup_delete_eq]. }
  rewrite getPostById_run, deletePost_run, Hf, Hgone.
  by destruct (valid_id i).
Qed.

(** X5. What [updatePost] wrote, [getPostById] reads back: after a
    successful [updatePost], a [getPostById] of the same id that the engine
    does not fail succeeds with the title, slug, content, publication flag
    and category id of the update, and, when the update was given [tagIds],
    with exactly the names of the supplied tags that exist (also for a post
    without a category, for which the answer of the update itself carries
    no tags). *)
Theorem updatePost_then_getPostById i u w r w' :
  updatePost i u w = (Returned r, w') ->
  errorCode r = None ->
  next_fault w' = None -> head_fault (tail (faults w')) = None ->
  ∃ d names,
    (getPostById i w').1 = Returned (mkResult (Some d) None)
    ∧ post d = mkPost i (u_title u) (slug (u_title u)) (u_content u)
                 (u_published u) (u_categoryId u)
    ∧ tags d = Some names
    ∧ ∀ ids, u_tagIds u = Some ids ->
        ∀ n, n ∈ names ↔ ∃ t, t ∈ ids ∧ tagTable (db w) !! t = Some n.
Proof.
  intros Hrun Hok Hf1 Hf2.
  destruct (updatePost_success_row _ _ _ _ _ Hrun Hok) as (Hv & Hposts & _).
  destruct (updatePost_success _ _ _ _ _ Hrun Hok) as (_ & Htags & _ & Hrows).
  rewrite getPostById_run, Hf1, Hv, Hposts, lookup_insert_eq, Hf2. simpl.
  eexists _, _. split; [reflexivity|]. split; [reflexivity|]. split; [reflexivity|].
  intros ids Hids n. rewrite Hids in Hrows.
  rewrite elem_of_tag_names_of, Htags. split.
  - intros [t [Hin Ht]]. rewrite Hrows in Hin.
    apply elem_of_app in Hin as [Hin|Hin].
    + apply list_elem_of_filter in Hin as [Hne _]. done.
    + apply elem_of_links in Hin as (_ & Hin & _). by exists t.
  - intros [t [Hin Ht]]. exists t. split; [|done]. rewrite Hrows.
    apply elem_of_app. right. apply elem_of_links. by eauto.
Qed.

(** ** [createPost] *)

Definition created_row (c : CreateData) : PostRow :=
  mkPostRow (c_title c) (normalizeString (c_title c)) (slug (c_title c))
    (c_content c) (Some (default false (c_published c))) (c_categoryId c).

Definition links (i : string) (ids : list string) (d : Db) : list (string * string) :=
  (fun t : string * string => (i, t.1)) <$> chosen ids d.

(** The run of a [createPost] without a category that nothing stops. *)
Lemma createPost_run_ok c w :
  let i := gen_random_uuid (entropy w) in
  faults w = [] ->
  c_categoryId c = None ->
  title_taken (normalizeString (c_title c)) None (postTable (db w)) = false ->
  postTable (db w) !! i = None ->
  forallb valid_id (c_tagIds c) = true ->
  c_tagIds c = [] ∨ selected (c_tagIds c) (db w) ≠ [] ->
  createPost c w
  = (Returned (mkResult
       (Some (mkPostData (to_post i (created_row c)) None
                (Some ((chosen (c_tagIds c) (db w)).*2)))) None),
     mkWorld (mkDb (<[i := created_row c]> (postTable (db w)))
                (categoryTable (db w)) (tagTable (db w))
                (postsToTags (db w) ++ links i (c_tagIds c) (db w)))
       [] (S (entropy w))).
Proof.
  intros i Hf Hcat Htitle Hfresh Hvalid Htags. subst i.
  destruct w as [d fs n]. simpl in *. subst fs.
  unfold_ops. unfold_stmts. unfold next_fault, advance, created_row, links.
  simpl. rewrite Hcat. simpl. rewrite Hfresh, Htitle. simpl.
  destruct (c_tagIds c) as [|t ts] eqn:Hids.
  - simpl. by rewrite chosen_nil, app_nil_r.
  - simpl in *. rewrite Hvalid. simpl.
    destruct Htags as [?|Hsel]; [done|].
    change (chosen (t :: ts) _) with (chosen (t :: ts) d).
    destruct (chosen (t :: ts) d) as [|x xs] eqn:Hs; [|done].
    exfalso. apply Hsel. apply Permutation_nil. by rewrite <- chosen_perm, Hs.
Qed.

Lemma elem_of_links_iff (i : string) ids d (r : string * string) :
  r ∈ links i ids d ↔ r.1 = i ∧ r.2 ∈ ids ∧ is_Some (tagTable d !! r.2).
Proof. destruct r as [p t]. unfold links. rewrite elem_of_links. done. Qed.

Lemma rows_of_own (i : string) (l : list (string * string)) :
  rows_of i ((fun t : string * string => (i, t.1)) <$> l)
  = (fun t : string * string => (i, t.1)) <$> l.
Proof.
  unfold rows_of. induction l as [|t l IH]; [done|].
  rewrite fmap_cons, filter_cons, decide_True by done. by f_equal.
Qed.

Lemma names_through_links (i : string) d (l : list (string * string)) :
  (∀ x, x ∈ l -> tagTable d !! x.1 = Some x.2) ->
  omap (fun r : string * string => tagTable d !! r.2)
    ((fun t : string * string => (i, t.1)) <$> l) = l.*2.
Proof.
  induction l as [|t l IH]; intros Hl; [done|].
  simpl. rewrite (Hl t) by left. f_equal. apply IH.
  intros x Hx. apply Hl. by right.
Qed.

(** The names the tag join of [getPostById] finds for a post whose rows
    are the links [createPost] has just written: those of the selected
    tags, in an order of its own. *)
Lemma tag_names_of_links i ids d posts old :
  rows_of i old = [] ->
  tag_names_of i (mkDb posts (categoryTable d) (tagTable d) (old ++ links i ids d))
  ≡ₚ (chosen ids d).*2.
Proof.
  intros Hold. rewrite tag_names_of_perm, tag_join_perm.
  unfold tags_through_rows. simpl.
  rewrite rows_of_app, Hold. simpl. unfold links. rewrite rows_of_own.
  rewrite names_through_links; [done|].
  intros [t n] Hin. by apply elem_of_chosen in Hin as [_ ?].
Qed.

(** X6. [createPost] without a category and with well-formed tag ids of
    which at least one exists (or with no tag ids at all), a free title and
    a working engine succeeds: the new post is linked to exactly the
    supplied tag ids that exist, and the answer carries exactly the names
    of those tags. *)
Theorem createPost_links_existing_tags c w :
  let i := gen_random_uuid (entropy w) in
  faults w = [] ->
  c_categoryId c = None ->
  title_taken (normalizeString (c_title c)) None (postTable (db w)) = false ->
  postTable (db w) !! i = None ->
  rows_of i (postsToTags (db w)) = [] ->
  forallb valid_id (c_tagIds c) = true ->
  c_tagIds c = [] ∨ selected (c_tagIds c) (db w) ≠ [] ->
  ∃ d names,
    (createPost c w).1 = Returned (mkResult (Some d) None)
    ∧ id (post d) = i ∧ category d = None ∧ tags d = Some names
    ∧ postTable (db (createPost c w).2) !! i = Some (created_row c)
    ∧ (∀ t, t ∈ tagIds_of i (db (createPost c w).2)
            ↔ t ∈ c_tagIds c ∧ is_Some (tagTable (db w) !! t))
    ∧ (∀ n, n ∈ names ↔ ∃ t, t ∈ c_tagIds c ∧ tagTable (db w) !! t = Some n).
Proof.
  intros i Hf Hcat Htitle Hfresh Hold Hvalid Htags.
  rewrite (createPost_run_ok c w Hf Hcat Htitle Hfresh Hvalid Htags). fold i. simpl.
  eexists _, _. split; [reflexivity|]. repeat split; try done.
  - apply lookup_insert_eq.
  - rewrite elem_of_tagIds_of in H. simpl in H.
    apply elem_of_app in H as [H|H].
    + assert (Hin : (i, t) ∈ rows_of i (postsToTags (db w)))
        by (by apply list_elem_of_filter).
      rewrite Hold in Hin. by apply elem_of_nil in Hin.
    + by apply elem_of_links_iff in H as (_ & ? & _).
  - rewrite elem_of_tagIds_of in H. simpl in H.
    apply elem_of_app in H as [H|H].
    + assert (Hin : (i, t) ∈ rows_of i (postsToTags (db w)))
        by (by apply list_elem_of_filter).
      rewrite Hold in Hin. by apply elem_of_nil in Hin.
    + by apply elem_of_links_iff in H as (_ & _ & ?).
  - intros [Hin Hex]. rewrite elem_of_tagIds_of. simpl.
    apply elem_of_app. right. by apply elem_of_links_iff.
  - intros Hn. apply list_elem_of_fmap in Hn as [[t n'] [-> Hin]].
    apply elem_of_chosen in Hin as [Hin Hl]. by exists t.
  - intros [t [Hin Hl]]. apply list_elem_of_fmap. exists (t, n).
    split; [done|]. by apply elem_of_chosen.
Qed.

(** X7. What [createPost] answered, [getPostById] answers again: after such
    a [createPost] of a post without a category, [getPostById] of the new
    id succeeds with the post the create returned, no category, and the tag
    names the create returned, in an order that may differ, and it changes
    nothing. *)
Theorem createPost_then_getPostById c w :
  let i := gen_random_uuid (entropy w) in
  faults w = [] ->
  c_categoryId c = None ->
  title_taken (normalizeString (c_title c)) None (postTable (db w)) = false ->
  postTable (db w) !! i = None ->
  rows_of i (postsToTags (db w)) = [] ->
  forallb valid_id (c_tagIds c) = true ->
  c_tagIds c = [] ∨ selected (c_tagIds c) (db w) ≠ [] ->
  valid_id i = true ->
  ∃ d names names' w',
    createPost c w = (Returned (mkResult (Some d) None), w')
    ∧ id (post d) = i ∧ category d = None ∧ tags d = Some names
    ∧ getPostById i w'
      = (Returned (mkResult (Some (mkPostData (post d) None (Some names'))) None),
         w')
    ∧ names' ≡ₚ names.
Proof.
  intros i Hf Hcat Htitle Hfresh Hold Hvalid Htags Hi.
  rewrite (createPost_run_ok c w Hf Hcat Htitle Hfresh Hvalid Htags). fold i.
  eexists _, _, _, _. split; [reflexivity|]. simpl.
  split; [reflexivity|]. split; [reflexivity|]. split; [reflexivity|].
  rewrite getPostById_run. unfold next_fault. simpl.
  rewrite Hi, lookup_insert_eq. unfold get_found, advance. simpl.
  unfold created_row at 2. simpl. rewrite Hcat. simpl.
  split; [reflexivity|].
  by apply (tag_names_of_links i (c_tagIds c) (db w)).
Qed.

Lemma title_taken_true n skip (t : gmap string PostRow) j row :
  t !! j = Some row -> Some j ≠ skip -> r_normalizedTitle row = n ->
  title_taken n skip t = true.
Proof.
  intros Hj Hskip Hn. unfold title_taken. apply bool_decide_eq_true.
  exists j, row. done.
Qed.

(** X8. Titles are unique up to normalisation: a [createPost] whose title
    has the normalised form of a stored post's title, and an [updatePost]
    that would give a post the normalised title of another stored post,
    answer [(null, duplicate_post_title)] and change no table (the engine
    not failing, the ids being well formed). *)
Theorem duplicate_titles_are_refused c i u w j row :
  next_fault w = None ->
  postTable (db w) !! j = Some row ->
  (valid_ref (c_categoryId c) = true ->
   r_normalizedTitle row = normalizeString (c_title c) ->
   (createPost c w).1 = Returned (mkResult None (Some "duplicate_post_title"))
   ∧ db (createPost c w).2 = db w)
  ∧ (valid_id i = true -> valid_ref (u_categoryId u) = true ->
     is_Some (postTable (db w) !! i) -> j ≠ i ->
     r_normalizedTitle row = normalizeString (u_title u) ->
     (updatePost i u w).1 = Returned (mkResult None (Some "duplicate_post_title"))
     ∧ db (updatePost i u w).2 = db w).
Proof.
  intros Hf Hj. split.
  - intros Hc Hn. unfold_ops. unfold_stmts. simpl. rewrite Hf. simpl.
    rewrite Hc. simpl.
    rewrite (title_taken_true _ None _ j row) by done.
    by destruct (bool_decide _).
  - intros Hi Hc [old Hold] Hne Hn. unfold_ops. unfold_stmts. simpl.
    rewrite Hf. simpl. rewrite Hi, Hc. simpl. rewrite Hold.
    rewrite (title_taken_true _ (Some i) _ j row) by (done || congruence).
    done.
Qed.

(** X9. A category that is not there is refused before anything is
    written: a [createPost] or an [updatePost] of a stored post whose
    [categoryId] is malformed, or is well formed and matches no category
    while the title is free, answers [(null, category_not_found)] and
    changes no table. *)
Theorem unknown_category_is_refused c i u w cat :
  next_fault w = None ->
  valid_id cat = false
  ∨ (categoryTable (db w) !! cat = None
     ∧ postTable (db w) !! gen_random_uuid (entropy w) = None) ->
  (c_categoryId c = Some cat ->
   title_taken (normalizeString (c_title c)) None (postTable (db w)) = false ->
   (createPost c w).1 = Returned (mkResult None (Some "category_not_found"))
   ∧ db (createPost c w).2 = db w)
  ∧ (u_categoryId u = Some cat ->
     is_Some (postTable (db w) !! i) ->
     title_taken (normalizeString (u_title u)) (Some i) (postTable (db w)) = false ->
     (updatePost i u w).1 = Returned (mkResult None (Some "category_not_found"))
     ∧ db (updatePost i u w).2 = db w).
Proof.
  intros Hf Hcat. split.
  - intros Hc Htitle. unfold_ops. unfold_stmts. simpl. rewrite Hf, Hc. simpl.
    destruct Hcat as [Hbad|[Hnone Hfresh]].
    + by rewrite Hbad.
    + destruct (valid_id cat); simpl; [|done].
      rewrite Hfresh, Htitle. simpl. by rewrite Hnone.
  - intros Hc [old Hold] Htitle. unfold_ops. unfold_stmts. simpl.
    rewrite Hf, Hc. simpl.
    destruct Hcat as [Hbad|[Hnone _]].
    + rewrite Hbad, andb_false_r. done.
    + destruct (valid_id i && valid_id cat); simpl; [|done].
      rewrite Hold, Htitle. simpl. by rewrite Hnone.
Qed.

(** X10. [createPost] only adds: however the call ends, every post row
    stored before is stored unchanged after, and the association table is
    the old one followed by new rows, each of which links the generated id
    to a supplied tag id that exists. *)
Theorem createPost_only_adds c w :
  (∀ j row, postTable (db w) !! j = Some row ->
            postTable (db (createPost c w).2) !! j = Some row)
  ∧ ∃ new, postsToTags (db (createPost c w).2) = (postsToTags (db w) ++ new)%list
      ∧ ∀ r, r ∈ new ->
          r.1 = gen_random_uuid (entropy w) ∧ r.2 ∈ c_tagIds c
          ∧ is_Some (tagTable (db w) !! r.2).
Proof.
  split.
  - intros j row Hj. final_world.
    repeat (case_match; simplify_eq/=; try done).
    all: rewrite lookup_insert_ne; [done|].
    all: intros <-.
    all: match goal with
         | Hb : bool_decide (is_Some _) = false |- _ =>
             apply bool_decide_eq_false in Hb; apply Hb; by eexists
         end.
  - final_world.
    repeat (case_match; simplify_eq/=; try done).
    all: try (exists []; split; [by rewrite app_nil_r | by intros r ?%elem_of_nil]).
    all: match goal with
         | Hs : chosen ?ids ?d' = ?x :: ?xs |- _ =>
             exists ((fun t : string * string =>
                        (gen_random_uuid (entropy w), t.1)) <$> (x :: xs));
             split; [done|]; rewrite <- Hs;
             intros r Hr; by apply (elem_of_links_iff _ ids d') in Hr
         end.
Qed.

(** The derived columns of every stored post agree with its title. *)
Definition derived_columns_ok (d : Db) : Prop :=
  map_Forall (fun _ row => r_normalizedTitle row = normalizeString (r_title row)
                           ∧ r_slug row = slug (r_title row)) (postTable d).

(** X11. The normalised title and the slug stay in step with the title: if
    they agree with the title in every stored row, they still do after any
    [createPost], [updatePost] or [deletePost] call, however it ends. *)
Theorem derived_columns_stay_in_step c i u w :
  derived_columns_ok (db w) ->
  derived_columns_ok (db (createPost c w).2)
  ∧ derived_columns_ok (db (updatePost i u w).2)
  ∧ derived_columns_ok (db (deletePost i w).2).
Proof.
  unfold derived_columns_ok. intros Hok. split; [|split].
  all: final_world.
  all: repeat (case_match; simplify_eq/=; try done).
  all: first [ by apply map_Forall_insert_2 | by apply map_Forall_delete ].
Qed.

(** ** The handlers *)

Lemma truthy_domain {A} errors (r : Result A) :
  domain_result errors r -> EmptyString ∉ errors ->
  match truthy (errorCode r) with
  | Some c => errorCode r = Some c ∧ c ∈ errors
  | None => errorCode r = None ∧ is_Some (data r)
  end.
Proof.
  unfold domain_result, truthy. intros Hdom Hne.
  destruct (errorCode r) as [c|]; [|done].
  destruct Hdom as [Hin _]. destruct (decide (c = "")) as [->|_]; done.
Qed.

Lemma or_existing_some {A} (given : option A) e (field : PostData -> A) w :
  or_existing given (Some e) field w = (Returned (default (field e) given), w).
Proof. by destruct given. Qed.

(** X12. [GET /] and [GET /:id] serve a post alike: when the engine does
    not fail, [GET /] answers 200 with a list in which no id occurs twice
    and an id occurs exactly when a post is stored under it, and for every
    element of that list whose id is well formed [GET /:id] answers 200
    with the same id, title, slug, content, publication flag and category
    name and with the same tag names, in an order that may differ. *)
Theorem listed_posts_are_served_alike w :
  next_fault w = None -> head_fault (tail (faults w)) = None ->
  ∃ posts,
    (listPosts w).1 = Returned (mkReply (PostsBody posts) OK)
    ∧ NoDup (v_id <$> posts)
    ∧ (∀ i, i ∈ v_id <$> posts ↔ is_Some (postTable (db w) !! i))
    ∧ (∀ v, v ∈ posts -> valid_id (v_id v) = true ->
         ∃ names names',
           v_tags v = Some names ∧ names' ≡ₚ names
           ∧ (getPost (v_id v) w).1
             = Returned (mkReply
                 (PostBody (mkPostView (v_id v) (v_title v) (v_slug v) (v_content v)
                              (v_published v) (v_category v) (Some names'))) OK)).
Proof.
  intros Hf1 Hf2. unfold listPosts, getPosts, query, fault_check, on_db, find_many,
    bind, ret. rewrite Hf1. simpl.
  eexists. split; [reflexivity|].
  assert (Hids : ∀ l : list (string * PostRow),
            v_id <$> (list_view <$>
              ((fun ir : string * PostRow =>
                  mkPostWithRelations (to_post ir.1 ir.2)
                    (r_categoryId ir.2 ≫= fun c => categoryTable (db w) !! c)
                    (shuffle
                       (in_find_many_tags row_order (tags_through_rows ir.1 (db w)))
                       (tags_through_rows ir.1 (db w)))) <$> l)) = l.*1).
  { intros l. induction l as [|x l IH]; [done|]. simpl. by f_equal. }
  rewrite Hids. split; [|split].
  - rewrite shuffle_perm. apply NoDup_fst_map_to_list.
  - intros i. rewrite shuffle_perm, list_elem_of_fmap. split.
    + intros [[j row] [-> Hin%elem_of_map_to_list]]. by eexists.
    + intros [row Hrow]. exists (i, row). split; [done|].
      by apply elem_of_map_to_list.
  - intros v Hv Hvalid.
    apply list_elem_of_fmap in Hv as [e [-> He]].
    apply list_elem_of_fmap in He as [[i row] [-> Hrow]].
    rewrite shuffle_perm in Hrow. apply elem_of_map_to_list in Hrow.
    simpl in *. eexists _, (tag_names_of i (db w)). split; [reflexivity|]. split.
    + by rewrite shuffle_perm, tag_names_of_perm, tag_join_perm.
    + unfold getPost, bind. rewrite getPostById_run, Hf1, Hvalid, Hrow, Hf2.
      done.
Qed.

(** X13. [PUT /:id] looks the post up before it updates: for an id that is
    malformed or matches no post row (the engine not failing) it answers
    404 "Not Found" after that one read, and [updatePost] is never run, so
    no table changes. *)
Theorem putPost_unknown_id i input w :
  next_fault w = None ->
  valid_id i = false ∨ postTable (db w) !! i = None ->
  putPost i input w
  = (Returned (problem "Not Found" ("Post with id '" +:+ i +:+ "' not found")
                 NOT_FOUND), advance w).
Proof.
  intros Hf Hno. unfold putPost, bind. rewrite getPostById_run, Hf.
  destruct Hno as [Hbad|Hnone].
  - by rewrite Hbad.
  - rewrite Hnone. by destruct (valid_id i).
Qed.

Ltac not_an_error :=
  let H := fresh in
  unfold get_errors, create_errors, update_errors, delete_errors;
  intros H; repeat (apply elem_of_cons in H as [H|H]; [discriminate H|]);
  by apply elem_of_nil in H.

Ltac status_clash :=
  simpl in *;
  unfold get_failure, respond, problem, ret, throw, OK, CREATED, NO_CONTENT,
    NOT_FOUND, CONFLICT, UNPROCESSABLE_ENTITY in *;
  repeat (case_match; simplify_eq/=; try done).

(** X14. [PUT /:id] is a partial update: when it answers 200, the stored
    row has the title, content, category id and publication flag of the
    body where the body gives them and those of the row stored before where
    it does not (a [null] category or flag in the body counts as given),
    its derived columns are recomputed from that title, and without
    [tagIds] in the body the association table is unchanged. *)
Theorem putPost_keeps_omitted_fields i input w rep w' old :
  putPost i input w = (Returned rep, w') ->
  status rep = OK ->
  postTable (db w) !! i = Some old ->
  ∃ new,
    postTable (db w') !! i = Some new
    ∧ r_title new = default (r_title old) (pb_title input)
    ∧ r_content new = default (r_content old) (pb_content input)
    ∧ r_categoryId new = default (r_categoryId old) (pb_categoryId input)
    ∧ r_published new = default (r_published old) (pb_published input)
    ∧ r_normalizedTitle new = normalizeString (r_title new)
    ∧ r_slug new = slug (r_title new)
    ∧ (pb_tagIds input = None -> postsToTags (db w') = postsToTags (db w)).
Proof.
  intros Hrun Hok Hold. unfold putPost in Hrun. unfold bind in Hrun at 1.
  rewrite getPostById_run, Hold in Hrun.
  destruct (next_fault w) as [e|] eqn:Hf1; [status_clash|].
  destruct (valid_id i) eqn:Hv; [|status_clash].
  destruct (head_fault (tail (faults w))) as [e|] eqn:Hf2; [status_clash|].
  simpl in Hrun. unfold bind in Hrun. rewrite !or_existing_some in Hrun.
  simpl in Hrun.
  match type of Hrun with
  | context [updatePost i ?u ?w1] =>
      destruct (updatePost_total i u w1) as (r & w2 & Hup & Hdom & _);
      rewrite Hup in Hrun;
      pose proof (truthy_domain update_errors r Hdom) as Htr
  end.
  destruct (truthy (errorCode r)) as [c|]; [status_clash|].
  destruct Htr as [Hnone [d Hd]]; [not_an_error|].
  destruct (updatePost_success_row _ _ _ _ _ Hup Hnone) as (_ & Hposts & _).
  destruct (updatePost_success _ _ _ _ _ Hup Hnone) as (_ & _ & _ & Hrows).
  rewrite Hd in Hrun. unfold respond, ret, OK in Hrun. simpl in Hrun. simplify_eq.
  eexists. split; [rewrite Hposts; apply lookup_insert_eq|].
  simpl in *. repeat split; try done.
  intros Hnotags. by rewrite Hnotags in Hrows.
Qed.

Ltac one_of_errors H :=
  unfold get_errors, create_errors, update_errors, delete_errors in H;
  repeat (apply elem_of_cons in H as [->|H]); [..|by apply elem_of_nil in H].

Ltac status_in :=
  simpl; unfold problem, OK, CREATED, NO_CONTENT, NOT_FOUND, CONFLICT,
    UNPROCESSABLE_ENTITY; simpl;
  repeat first [ apply list_elem_of_here | apply list_elem_of_further ].

Lemma get_error_cases e :
  (code e = Some "22P02" ∧ get_error e = mkResult None (Some "post_not_found"))
  ∨ (code e ≠ Some "22P02" ∧ get_error e = mkResult None (Some "cannot_get_post")).
Proof.
  unfold get_error. destruct (code e) as [c|]; [|by right].
  destruct (decide (c = "22P02")) as [->|Hc]; [by left|].
  right. split; [congruence|]. repeat (case_match; try done).
Qed.

Lemma delete_error_cases e :
  (code e = Some "22P02" ∧ delete_error e = mkResult None (Some "post_not_found"))
  ∨ (code e ≠ Some "22P02"
     ∧ delete_error e = mkResult None (Some "cannot_delete_post")).
Proof.
  unfold delete_error. destruct (code e) as [c|]; [|by right].
  destruct (decide (c = "22P02")) as [->|Hc]; [by left|].
  right. split; [congruence|]. repeat (case_match; try done).
Qed.

(** The read of [getPostById] was failed by the engine, in its first or in
    its second statement, with an error other than the one for a malformed
    value. *)
Definition read_failed (w : World) : Prop :=
  ∃ f, code f ≠ Some "22P02"
       ∧ (next_fault w = Some f
          ∨ (next_fault w = None ∧ head_fault (tail (faults w)) = Some f)).

(** The statement of [deletePost] was failed by the engine with an error
    other than the one for a malformed value. *)
Definition delete_failed (w : World) : Prop :=
  ∃ f, code f ≠ Some "22P02" ∧ next_fault w = Some f.

(** X15. What the four handlers of a single post answer.  [POST /] always
    replies, with 201, 409, 404 or 422.  [GET /:id], [PUT /:id] and
    [DELETE /:id] either reply, with a status among 200, 404 for the first,
    200, 404, 409, 422 for the second and 204, 404 for the third, or throw;
    they throw only when the engine failed the read (the delete, for the
    third) with an error other than the one for a malformed value, because
    the reply they then build has the status -1; and when the engine fails
    their first statement with such an error all three throw. *)
Theorem handlers_reply_or_throw i c input w :
  (∃ rep w', postPost c w = (Returned rep, w')
             ∧ status rep ∈ [CREATED; CONFLICT; NOT_FOUND; UNPROCESSABLE_ENTITY])
  ∧ match (getPost i w).1 with
    | Returned rep => status rep ∈ [OK; NOT_FOUND]
    | Thrown _ => read_failed w
    end
  ∧ match (putPost i input w).1 with
    | Returned rep => status rep ∈ [OK; NOT_FOUND; CONFLICT; UNPROCESSABLE_ENTITY]
    | Thrown _ => read_failed w
    end
  ∧ match (deletePostReply i w).1 with
    | Returned rep => status rep ∈ [NO_CONTENT; NOT_FOUND]
    | Thrown _ => delete_failed w
    end
  ∧ (delete_failed w ->
     (∃ e, (getPost i w).1 = Thrown e) ∧ (∃ e, (putPost i input w).1 = Thrown e)
     ∧ (∃ e, (deletePostReply i w).1 = Thrown e)).
Proof.
  split; [|split; [|split; [|split]]].
  - destruct (createPost_total c w) as (r & w1 & Hrun & Hdom & _).
    pose proof (truthy_domain create_errors r Hdom ltac:(not_an_error)) as Htr.
    unfold postPost, bind. rewrite Hrun.
    destruct (truthy (errorCode r)) as [e|].
    + destruct Htr as [_ Hin]. one_of_errors Hin.
      all: eexists _, _; split; [reflexivity|]; status_in.
    + eexists _, _; split; [reflexivity|]; status_in.
  - unfold getPost, bind. rewrite getPostById_run.
    destruct (next_fault w) as [f|] eqn:Hf1.
    { destruct (get_error_cases f) as [[Hc ->]|[Hc ->]]; simpl.
      - status_in.
      - exists f. split; [done|by left]. }
    destruct (valid_id i); [|simpl; status_in].
    destruct (postTable (db w) !! i) as [row|]; [|simpl; status_in].
    destruct (head_fault (tail (faults w))) as [f|] eqn:Hf2; [|simpl; status_in].
    destruct (get_error_cases f) as [[Hc ->]|[Hc ->]]; simpl.
    + status_in.
    + exists f. split; [done|by right].
  - unfold putPost. unfold bind at 1. rewrite getPostById_run.
    destruct (next_fault w) as [f|] eqn:Hf1.
    { destruct (get_error_cases f) as [[Hc ->]|[Hc ->]]; simpl.
      - status_in.
      - exists f. split; [done|by left]. }
    destruct (valid_id i); [|simpl; status_in].
    destruct (postTable (db w) !! i) as [row|]; [|simpl; status_in].
    destruct (head_fault (tail (faults w))) as [f|] eqn:Hf2.
    { destruct (get_error_cases f) as [[Hc ->]|[Hc ->]]; simpl.
      - status_in.
      - exists f. split; [done|by right]. }
    simpl. unfold bind. rewrite !or_existing_some.
    match goal with
    | |- context [updatePost i ?u ?w0] =>
        destruct (updatePost_total i u w0) as (r2 & w2 & Hup & Hdom2 & _);
        rewrite Hup;
        pose proof (truthy_domain update_errors r2 Hdom2 ltac:(not_an_error))
          as Htr2
    end.
    destruct (truthy (errorCode r2)) as [e|].
    + destruct Htr2 as [_ Hin]. one_of_errors Hin. all: status_in.
    + destruct Htr2 as [_ [d2 Hd2]]. rewrite Hd2. status_in.
  - unfold deletePostReply, bind. rewrite deletePost_run.
    destruct (next_fault w) as [f|] eqn:Hf1.
    { destruct (delete_error_cases f) as [[Hc ->]|[Hc ->]]; simpl.
      - status_in.
      - exists f. by split. }
    destruct (valid_id i); [|simpl; status_in].
    destruct (postTable (db w) !! i) as [row|]; simpl; status_in.
  - intros (f & Hc & Hf).
    destruct (get_error_cases f) as [[Hc' _]|[_ Hget]]; [done|].
    destruct (delete_error_cases f) as [[Hc' _]|[_ Hdel]]; [done|].
    split; [|split].
    + unfold getPost, bind. rewrite getPostById_run, Hf, Hget. by eexists.
    + unfold putPost. unfold bind at 1. rewrite getPostById_run, Hf, Hget.
      by eexists.
    + unfold deletePostReply, bind. rewrite deletePost_run, Hf, Hdel. by eexists.
Qed.

(** X16. Without a failure of the engine, [GET /:id] answers 200 for a
    well-formed id of a stored post and 404 for any other id, and
    [DELETE /:id] answers 204 and 404 in the same two cases; the status -1
    is never used then. *)
Theorem statuses_without_engine_failure i w :
  faults w = [] ->
  status <$> (match (getPost i w).1 with Returned rep => Some rep | _ => None end)
  = Some (if valid_id i && bool_decide (is_Some (postTable (db w) !! i))
          then OK else NOT_FOUND)
  ∧ status <$> (match (deletePostReply i w).1 with
                | Returned rep => Some rep | _ => None end)
    = Some (if valid_id i && bool_decide (is_Some (postTable (db w) !! i))
            then NO_CONTENT else NOT_FOUND).
Proof.
  intros Hf. unfold getPost, deletePostReply, bind.
  rewrite getPostById_run, deletePost_run. unfold next_fault. rewrite Hf. simpl.
  destruct (valid_id i); simpl; [|done].
  destruct (postTable (db w) !! i) as [row|]; done.
Qed.

Lemma createPost_success_row c w r w' :
  createPost c w = (Returned r, w') ->
  errorCode r = None ->
  postTable (db w) !! gen_random_uuid (entropy w) = None
  ∧ postTable (db w')
    = <[gen_random_uuid (entropy w) := created_row c]> (postTable (db w))
  ∧ ∃ d, data r = Some d
         ∧ post d = to_post (gen_random_uuid (entropy w)) (created_row c).
Proof.
  intros H Hr. unfold_ops. unfold_stmts. unfold created_row.
  split_cases; try done.
  all: match goal with
       | Hb : bool_decide (is_Some ?o) = false |- _ =>
           apply bool_decide_eq_false in Hb; destruct o eqn:Ho;
           [exfalso; apply Hb; by eexists|]
       end.
  all: repeat split; try done; by eexists.
Qed.

(** X17. A 201 of [POST /] means the post is stored: the body then carries
    the created post, whose id was free before the call and now keys a row
    with the title and content of the request, the normalised title and the
    slug derived from that title, the given category and the given
    publication flag, or [false] when none was given. *)
Theorem postPost_created_is_stored c w rep w' :
  postPost c w = (Returned rep, w') ->
  status rep = CREATED ->
  ∃ d, body rep = CreatedBody (Some d)
       ∧ title (post d) = c_title c ∧ content (post d) = c_content c
       ∧ postTable (db w) !! id (post d) = None
       ∧ postTable (db w') !! id (post d)
         = Some (mkPostRow (c_title c) (normalizeString (c_title c))
                   (slug (c_title c)) (c_content c)
                   (Some (default false (c_published c))) (c_categoryId c)).
Proof.
  intros Hrun Hok. unfold postPost, bind in Hrun.
  destruct (createPost_total c w) as (r & w1 & Hcr & Hdom & _).
  rewrite Hcr in Hrun.
  pose proof (truthy_domain create_errors r Hdom ltac:(not_an_error)) as Htr.
  destruct (truthy (errorCode r)) as [e|]; [status_clash|].
  destruct Htr as [Hnone _]. unfold respond, ret, CREATED in Hrun. simpl in Hrun.
  simplify_eq.
  destruct (createPost_success_row _ _ _ _ Hcr Hnone)
    as (Hfresh & Hposts & d & Hd & Hpost).
  exists d. simpl. rewrite Hd, Hpost, Hposts. simpl.
  repeat split; try done. apply lookup_insert_eq.
Qed.

End Repository.

(** * The statements on the concrete store

    [demo_db] holds two posts ([post1] without a category and linked to
    [tag1]; [post2] in category [cat1] and linked to [tag2]), the category
    [cat1], and the tags [tag1] and [tag2]; [tag9] is a well-formed id of no
    tag. *)

Local Abbreviation demo_getPostById := (getPostById is_uuid demo_order).
Local Abbreviation demo_createPost :=
  (createPost is_uuid demo_normalize demo_slug demo_uuid demo_order).
Local Abbreviation demo_updatePost := (updatePost is_uuid demo_normalize demo_slug demo_order).
Local Abbreviation demo_deletePost := (deletePost is_uuid).

(** C1. [updatePost] on a post without a category answers without a [tags]
    property although it has just resolved and stored the tag set; the
    branch for a post with a category answers with the tag names. *)
Theorem updatePost_without_category_omits_tags :
  let without := demo_updatePost post1
                   (mkUpdateData "Hello" "hi" None (Some false) (Some [tag2]))
                   demo_world in
  let within := demo_updatePost post2
                  (mkUpdateData "Second" "text" (Some cat1) (Some true) (Some [tag1]))
                  demo_world in
  without.1
  = Returned (mkResult
      (Some (mkPostData (mkPost post1 "Hello" "Hello" "hi" (Some false) None)
               None None)) None)
  ∧ tagIds_of post1 (db without.2) = [tag2]
  ∧ within.1
    = Returned (mkResult
        (Some (mkPostData (mkPost post2 "Second" "Second" "text" (Some true) (Some cat1))
                 (Some "news") (Some ["tag-one"]))) None).
Proof.
  cbv zeta. split; [|split].
  - vm_compute. reflexivity.
  - vm_compute. reflexivity.
  - vm_compute. reflexivity.
Qed.

(** C8. [createPost] without a category and with a non-empty [tagIds] none
    of which exists: the post row is inserted, no tag is selected, the
    insert of an empty list of association rows is refused, and the call
    answers [(null, cannot_create_post)]. *)
Theorem createPost_with_only_unknown_tags_fails :
  let call := demo_createPost (mkCreateData "Fresh" "hi" None None [tag9]) demo_world in
  call.1 = Returned (mkResult None (Some "cannot_create_post"))
  ∧ postTable (db call.2) !! demo_uuid 0
    = Some (mkPostRow "Fresh" "Fresh" "Fresh" "hi" (Some false) None)
  ∧ tagTable demo_db !! tag9 = None.
Proof.
  cbv zeta. split; [|split].
  - vm_compute. reflexivity.
  - vm_compute. reflexivity.
  - vm_compute. reflexivity.
Qed.

(** C3 fails on the code: a [createPost] whose tag step fails has already
    written the post row, and an [updatePost] whose tag step fails has
    already rewritten the post row and deleted the association rows of the
    post; both answer with a non-null error code. *)
Lemma failed_calls_keep_earlier_writes :
  (let call := demo_createPost (mkCreateData "Fresh" "hi" None None [tag9]) demo_world in
   call.1 = Returned (mkResult None (Some "cannot_create_post"))
   ∧ postTable (db demo_world) !! demo_uuid 0 = None
   ∧ is_Some (postTable (db call.2) !! demo_uuid 0))
  ∧ (let call := demo_updatePost post1
                   (mkUpdateData "Renamed" "hi" None (Some false) (Some [tag9]))
                   demo_world in
     call.1 = Returned (mkResult None (Some "cannot_update_post"))
     ∧ tagIds_of post1 (db demo_world) = [tag1]
     ∧ tagIds_of post1 (db call.2) = []
     ∧ r_title <$> postTable (db call.2) !! post1 = Some "Renamed").
Proof.
  cbv zeta. repeat split; try (vm_compute; reflexivity).
  vm_compute. by eexists.
Qed.

(** C4 fails on the code: a storage failure during [getPosts] is thrown to
    the caller, not returned as an error kind. *)
Lemma getPosts_throws_storage_failure :
  getPosts demo_order (mkWorld demo_db [Some (pg_error "08006")] 0)
  = (Thrown (pg_error "08006"), mkWorld demo_db [] 0).
Proof. unfold getPosts, query, fault_check, bind. simpl. reflexivity. Qed.

(** C10 fails on the code: an [updatePost] whose id is not a well-formed
    identifier matches no post row and answers [category_not_found]. *)
Lemma updatePost_malformed_id_is_category_not_found :
  postTable (db demo_world) !! "not-a-uuid" = None
  ∧ (demo_updatePost "not-a-uuid"
       (mkUpdateData "Hello" "hi" None (Some false) None) demo_world).1
    = Returned (mkResult None (Some "category_not_found")).
Proof. split; vm_compute; reflexivity. Qed.

(** ** Instances of the general statements *)

Lemma createPost_with_category_associates_nothing_witness :
  is_uuid "" = false
  ∧ postsToTags
      (db (demo_createPost
             (mkCreateData "Fresh" "hi" (Some cat1) None [tag1; tag2]) demo_world).2)
    = postsToTags (db demo_world).
Proof.
  split; [reflexivity|].
  apply (createPost_with_category_associates_nothing is_uuid demo_normalize
           demo_slug demo_uuid demo_order _ cat1); reflexivity.
Defined.

Lemma deletePost_leaves_no_association_witness :
  errorCode (mkResult (Some post1) None) = None
  ∧ rows_of post1 (postsToTags (db (demo_deletePost post1 demo_world).2)) = []
  ∧ postTable (db (demo_deletePost post1 demo_world).2) !! post1 = None.
Proof.
  split; [reflexivity|].
  apply (deletePost_leaves_no_association is_uuid post1 demo_world
           (mkResult (Some post1) None)).
  - vm_compute. reflexivity.
  - reflexivity.
Defined.

Lemma updatePost_replaces_tag_set_witness :
  let data := mkUpdateData "Hello" "hi" None (Some false) (Some [tag2; tag9]) in
  let r := mkResult
             (Some (mkPostData (mkPost post1 "Hello" "Hello" "hi" (Some false) None)
                      None None)) None in
  demo_updatePost post1 data demo_world
  = (Returned r, (demo_updatePost post1 data demo_world).2)
  ∧ ∀ t, t ∈ tagIds_of post1 (db (demo_updatePost post1 data demo_world).2)
         ↔ t ∈ [tag2; tag9] ∧ is_Some (tagTable (db demo_world) !! t).
Proof.
  cbv zeta.
  assert (Hrun : demo_updatePost post1
                   (mkUpdateData "Hello" "hi" None (Some false) (Some [tag2; tag9]))
                   demo_world
                 = (Returned (mkResult
                      (Some (mkPostData
                               (mkPost post1 "Hello" "Hello" "hi" (Some false) None)
                               None None)) None),
                    (demo_updatePost post1
                       (mkUpdateData "Hello" "hi" None (Some false) (Some [tag2; tag9]))
                       demo_world).2))
    by (vm_compute; reflexivity).
  split; [exact Hrun|].
  exact (updatePost_replaces_tag_set is_uuid demo_normalize demo_slug demo_order
           _ _ _ _ _ Hrun eq_refl).
Defined.

Lemma updatePost_twice_same_tagIds_witness :
  let data := mkUpdateData "Hello" "hi" None (Some false) (Some [tag2; tag9; tag2]) in
  let r := mkResult
             (Some (mkPostData (mkPost post1 "Hello" "Hello" "hi" (Some false) None)
                      None None)) None in
  let w1 := (demo_updatePost post1 data demo_world).2 in
  let w2 := (demo_updatePost post1 data w1).2 in
  demo_updatePost post1 data demo_world = (Returned r, w1)
  ∧ demo_updatePost post1 data w1 = (Returned r, w2)
  ∧ (∀ t, link_count post1 t (db w2) =
          if decide (t ∈ [tag2; tag9; tag2] ∧ is_Some (tagTable (db demo_world) !! t))
          then 1 else 0)
  ∧ rows_of post1 (postsToTags (db w2)) = rows_of post1 (postsToTags (db w1)).
Proof.
  cbv zeta.
  set (data := mkUpdateData "Hello" "hi" None (Some false) (Some [tag2; tag9; tag2])).
  set (r := mkResult
              (Some (mkPostData (mkPost post1 "Hello" "Hello" "hi" (Some false) None)
                       None None)) None).
  assert (Hrun1 : demo_updatePost post1 data demo_world
                  = (Returned r, (demo_updatePost post1 data demo_world).2))
    by (vm_compute; reflexivity).
  assert (Hrun2 : demo_updatePost post1 data (demo_updatePost post1 data demo_world).2
                  = (Returned r,
                     (demo_updatePost post1 data
                        (demo_updatePost post1 data demo_world).2).2))
    by (vm_compute; reflexivity).
  split; [exact Hrun1|]. split; [exact Hrun2|].
  exact (updatePost_twice_same_tagIds is_uuid demo_normalize demo_slug demo_order
           post1 data [tag2; tag9; tag2] _ _ _ _ _ eq_refl Hrun1 eq_refl Hrun2 eq_refl).
Defined.

Lemma first_statement_failure_leaves_store_witness :
  let cdata := mkCreateData "Hello World" "again" None None [tag1] in
  let udata := mkUpdateData "Second" "hi" None (Some false) (Some [tag2]) in
  insertPostRow is_uuid demo_normalize demo_slug demo_uuid cdata demo_world
  = (Thrown (pg_error "23505"), mkWorld demo_db [] 1)
  ∧ updatePostRow is_uuid demo_normalize demo_slug post1 udata demo_world
    = (Thrown (pg_error "23505"), mkWorld demo_db [] 0)
  ∧ (∃ w', demo_createPost cdata demo_world
           = (Returned (mkResult None
                (Some (classify "cannot_create_post" (pg_error "23505")))), w')
           ∧ db w' = db demo_world)
  ∧ (∃ w', demo_updatePost post1 udata demo_world
           = (Returned (mkResult None
                (Some (classify "cannot_update_post" (pg_error "23505")))), w')
           ∧ db w' = db demo_world).
Proof.
  cbv zeta.
  split; [vm_compute; reflexivity|]. split; [vm_compute; reflexivity|]. split.
  - apply (proj1 (first_statement_failure_leaves_store is_uuid demo_normalize
                    demo_slug demo_uuid demo_order
                    (mkCreateData "Hello World" "again" None None [tag1]) post1
                    (mkUpdateData "Second" "hi" None (Some false) (Some [tag2]))
                    demo_world (pg_error "23505") (mkWorld demo_db [] 1))).
    vm_compute. reflexivity.
  - apply (proj2 (first_statement_failure_leaves_store is_uuid demo_normalize
                    demo_slug demo_uuid demo_order
                    (mkCreateData "Hello World" "again" None None [tag1]) post1
                    (mkUpdateData "Second" "hi" None (Some false) (Some [tag2]))
                    demo_world (pg_error "23505") (mkWorld demo_db [] 0))).
    vm_compute. reflexivity.
Defined.

Lemma getPostById_outcomes_witness :
  let found := mkResult
                 (Some (mkPostData
                          (mkPost post1 "Hello World" "Hello World" "hi" (Some false)
                             None)
                          None (Some ["tag-one"; "tag-two"]))) None in
  (demo_getPostById "not-a-uuid" demo_world).1
  = Returned (mkResult None (Some "post_not_found"))
  ∧ (demo_getPostById tag9 demo_world).1
    = Returned (mkResult None (Some "post_not_found"))
  ∧ (demo_getPostById post2 (mkWorld demo_db [None; Some (pg_error "57014")] 0)).1
    = Returned (mkResult None (Some "cannot_get_post"))
  ∧ (demo_getPostById post1 linked_world).1 = Returned found
  ∧ (∃ row names,
       postTable (db linked_world) !! post1 = Some row
       ∧ data found
         = Some (mkPostData
                   (mkPost post1 (r_title row) (r_slug row) (r_content row)
                      (r_published row) (r_categoryId row))
                   (r_categoryId row ≫= fun c => categoryTable (db linked_world) !! c)
                   (Some names))
       ∧ names ≡ₚ omap (fun a : string * string => tagTable (db linked_world) !! a.2)
                    (filter (fun a : string * string => a.1 = post1)
                       (postsToTags (db linked_world))))
  ∧ omap (fun a : string * string => tagTable (db linked_world) !! a.2)
      (filter (fun a : string * string => a.1 = post1) (postsToTags (db linked_world)))
    = ["tag-two"; "tag-one"]
  ∧ ∃ r, (demo_getPostById post2 demo_world).1 = Returned r ∧ errorCode r = None.
Proof.
  cbv zeta.
  assert (Hrun : (demo_getPostById post1 linked_world).1
                 = Returned
                     (mkResult
                        (Some (mkPostData
                                 (mkPost post1 "Hello World" "Hello World" "hi"
                                    (Some false) None)
                                 None (Some ["tag-one"; "tag-two"]))) None))
    by (vm_compute; reflexivity).
  split; [|split; [|split; [|split; [|split; [|split]]]]].
  - apply (proj1 (getPostById_outcomes is_uuid demo_order "not-a-uuid" demo_world));
      [reflexivity | left; reflexivity].
  - apply (proj1 (getPostById_outcomes is_uuid demo_order tag9 demo_world));
      [reflexivity | right; vm_compute; reflexivity].
  - apply (proj1 (proj2 (getPostById_outcomes is_uuid demo_order post2
                           (mkWorld demo_db [None; Some (pg_error "57014")] 0)))
             (pg_error "57014")); [discriminate|].
    right. repeat split; try reflexivity. vm_compute. by eexists.
  - exact Hrun.
  - exact (proj1 (proj2 (proj2 (getPostById_outcomes is_uuid demo_order post1
                                  linked_world))) _ Hrun eq_refl).
  - vm_compute. reflexivity.
  - apply (proj2 (proj2 (proj2 (getPostById_outcomes is_uuid demo_order post2
                                  demo_world)))
             (mkPostRow "Second" "Second" "Second" "text" (Some true) (Some cat1)));
      vm_compute; reflexivity.
Defined.

Lemma updatePost_unknown_id_witness :
  let data := mkUpdateData "Hello" "hi" (Some cat1) (Some false) (Some [tag1]) in
  next_fault demo_world = None
  ∧ postTable (db demo_world) !! tag9 = None
  ∧ (demo_updatePost tag9 data demo_world).1
    = Returned (mkResult None (Some "cannot_update_post"))
  ∧ db (demo_updatePost tag9 data demo_world).2 = db demo_world.
Proof.
  cbv zeta. split; [reflexivity|].
  split; [vm_compute; reflexivity|].
  exact (updatePost_unknown_id is_uuid demo_normalize demo_slug demo_order tag9
           (mkUpdateData "Hello" "hi" (Some cat1) (Some false) (Some [tag1]))
           demo_world eq_refl eq_refl).
Defined.

(** ** Instances of the further properties *)

Local Abbreviation demo_getPost := (getPost is_uuid demo_order).
Local Abbreviation demo_putPost := (putPost is_uuid demo_normalize demo_slug demo_order).
Local Abbreviation demo_postPost :=
  (postPost is_uuid demo_normalize demo_slug demo_uuid demo_order).

Lemma update_and_delete_touch_one_post_witness :
  let u := mkUpdateData "Hello" "hi" None (Some false) (Some [tag2]) in
  post2 ≠ post1
  ∧ rows_of post2 (postsToTags (db (demo_updatePost post1 u demo_world).2))
    = rows_of post2 (postsToTags (db demo_world))
  ∧ postTable (db (demo_deletePost post1 demo_world).2) !! post2
    = postTable (db demo_world) !! post2.
Proof.
  cbv zeta.
  assert (Hne : post2 ≠ post1) by discriminate.
  split; [exact Hne|]. split.
  - exact (proj2 (proj1 (update_and_delete_touch_one_post is_uuid demo_normalize
                           demo_slug demo_order post1 _ demo_world post2 Hne))).
  - exact (proj1 (proj2 (update_and_delete_touch_one_post is_uuid demo_normalize
                           demo_slug demo_order post1
                           (mkUpdateData "Hello" "hi" None (Some false) None)
                           demo_world post2 Hne))).
Defined.

Lemma deletePost_unknown_id_witness :
  next_fault demo_world = None
  ∧ is_uuid "42" = false
  ∧ demo_deletePost "42" demo_world
    = (Returned (mkResult None (Some "post_not_found")), advance demo_world).
Proof.
  split; [reflexivity|]. split; [reflexivity|].
  apply (deletePost_unknown_id is_uuid "42" demo_world); [reflexivity|].
  left. reflexivity.
Defined.

Lemma deleted_post_is_not_found_witness :
  let w' := (demo_deletePost post1 demo_world).2 in
  demo_deletePost post1 demo_world = (Returned (mkResult (Some post1) None), w')
  ∧ (demo_getPostById post1 w').1 = Returned (mkResult None (Some "post_not_found"))
  ∧ (demo_deletePost post1 w').1 = Returned (mkResult None (Some "post_not_found")).
Proof.
  cbv zeta.
  assert (Hrun : demo_deletePost post1 demo_world
                 = (Returned (mkResult (Some post1) None),
                    (demo_deletePost post1 demo_world).2))
    by (vm_compute; reflexivity).
  split; [exact Hrun|].
  exact (deleted_post_is_not_found is_uuid demo_order post1 demo_world _ _ Hrun eq_refl eq_refl).
Defined.

Lemma updatePost_then_getPostById_witness :
  let u := mkUpdateData "Hello" "hi" None (Some false) (Some [tag2; tag9]) in
  let r := mkResult
             (Some (mkPostData (mkPost post1 "Hello" "Hello" "hi" (Some false) None)
                      None None)) None in
  let w' := (demo_updatePost post1 u demo_world).2 in
  demo_updatePost post1 u demo_world = (Returned r, w')
  ∧ ∃ d names,
      (demo_getPostById post1 w').1 = Returned (mkResult (Some d) None)
      ∧ post d = mkPost post1 "Hello" "Hello" "hi" (Some false) None
      ∧ tags d = Some names
      ∧ ∀ ids, Some [tag2; tag9] = Some ids ->
          ∀ n, n ∈ names ↔ ∃ t, t ∈ ids ∧ tagTable (db demo_world) !! t = Some n.
Proof.
  cbv zeta.
  assert (Hrun : demo_updatePost post1
                   (mkUpdateData "Hello" "hi" None (Some false) (Some [tag2; tag9]))
                   demo_world
                 = (Returned (mkResult
                      (Some (mkPostData
                               (mkPost post1 "Hello" "Hello" "hi" (Some false) None)
                               None None)) None),
                    (demo_updatePost post1
                       (mkUpdateData "Hello" "hi" None (Some false) (Some [tag2; tag9]))
                       demo_world).2))
    by (vm_compute; reflexivity).
  split; [exact Hrun|].
  exact (updatePost_then_getPostById is_uuid demo_normalize demo_slug demo_order
           _ _ _ _ _ Hrun eq_refl eq_refl eq_refl).
Defined.

Lemma createPost_links_existing_tags_witness :
  let c := mkCreateData "Fresh" "hi" None None [tag1; tag9] in
  faults demo_world = []
  ∧ forallb is_uuid (c_tagIds c) = true
  ∧ selected (c_tagIds c) (db demo_world) ≠ []
  ∧ ∃ d, (demo_createPost c demo_world).1 = Returned (mkResult (Some d) None)
         ∧ tags d = Some ["tag-one"]
         ∧ (∀ t, t ∈ tagIds_of (demo_uuid 0) (db (demo_createPost c demo_world).2)
                 ↔ t ∈ [tag1; tag9] ∧ is_Some (tagTable (db demo_world) !! t)).
Proof.
  cbv zeta.
  assert (Hsel : selected [tag1; tag9] (db demo_world) ≠ [])
    by (vm_compute; discriminate).
  split; [reflexivity|]. split; [reflexivity|]. split; [exact Hsel|].
  destruct (createPost_links_existing_tags is_uuid demo_normalize demo_slug demo_uuid demo_order
              (mkCreateData "Fresh" "hi" None None [tag1; tag9]) demo_world
              eq_refl eq_refl eq_refl eq_refl eq_refl eq_refl (or_intror Hsel))
    as (d & names & Hrun & _ & _ & Htags & _ & Hlinks & _).
  exists d. split; [exact Hrun|]. split; [|exact Hlinks].
  vm_compute in Hrun. injection Hrun as <-. exact eq_refl.
Defined.

Lemma createPost_then_getPostById_witness :
  let c := mkCreateData "Fresh" "hi" None None [tag2; tag1] in
  let fresh := mkPost (demo_uuid 0) "Fresh" "Fresh" "hi" (Some false) None in
  faults demo_world = []
  ∧ is_uuid (demo_uuid 0) = true
  ∧ rows_of (demo_uuid 0) (postsToTags (db demo_world)) = []
  ∧ (demo_createPost c demo_world).1
    = Returned (mkResult
        (Some (mkPostData fresh None (Some ["tag-two"; "tag-one"]))) None)
  ∧ (demo_getPostById (demo_uuid 0) (demo_createPost c demo_world).2).1
    = Returned (mkResult
        (Some (mkPostData fresh None (Some ["tag-one"; "tag-two"]))) None)
  ∧ ∃ d names names' w',
      demo_createPost c demo_world = (Returned (mkResult (Some d) None), w')
      ∧ id (post d) = demo_uuid 0 ∧ category d = None ∧ tags d = Some names
      ∧ demo_getPostById (demo_uuid 0) w'
        = (Returned (mkResult (Some (mkPostData (post d) None (Some names'))) None),
           w')
      ∧ names' ≡ₚ names.
Proof.
  cbv zeta.
  split; [reflexivity|]. split; [reflexivity|]. split; [reflexivity|].
  split; [vm_compute; reflexivity|]. split; [vm_compute; reflexivity|].
  apply (createPost_then_getPostById is_uuid demo_normalize demo_slug demo_uuid
           demo_order (mkCreateData "Fresh" "hi" None None [tag2; tag1]) demo_world);
    try reflexivity.
  right. vm_compute. discriminate.
Defined.

Lemma duplicate_titles_are_refused_witness :
  let c := mkCreateData "Second" "again" None None [] in
  let u := mkUpdateData "Second" "hi" None (Some false) None in
  next_fault demo_world = None
  ∧ r_normalizedTitle <$> postTable (db demo_world) !! post2
    = Some (demo_normalize "Second")
  ∧ ((demo_createPost c demo_world).1
     = Returned (mkResult None (Some "duplicate_post_title"))
     ∧ db (demo_createPost c demo_world).2 = db demo_world)
  ∧ ((demo_updatePost post1 u demo_world).1
     = Returned (mkResult None (Some "duplicate_post_title"))
     ∧ db (demo_updatePost post1 u demo_world).2 = db demo_world).
Proof.
  cbv zeta.
  pose proof (duplicate_titles_are_refused is_uuid demo_normalize demo_slug demo_uuid demo_order
                (mkCreateData "Second" "again" None None []) post1
                (mkUpdateData "Second" "hi" None (Some false) None) demo_world
                post2 (mkPostRow "Second" "Second" "Second" "text" (Some true)
                         (Some cat1))
                eq_refl eq_refl) as [Hcreate Hupdate].
  split; [reflexivity|]. split; [reflexivity|]. split.
  - apply Hcreate; reflexivity.
  - apply Hupdate; try reflexivity; [vm_compute; by eexists | discriminate].
Defined.

Lemma unknown_category_is_refused_witness :
  let c := mkCreateData "Fresh" "hi" (Some tag9) None [tag1] in
  let u := mkUpdateData "Hello" "hi" (Some "seven") (Some false) None in
  next_fault demo_world = None
  ∧ is_uuid tag9 = true ∧ categoryTable (db demo_world) !! tag9 = None
  ∧ is_uuid "seven" = false
  ∧ ((demo_createPost c demo_world).1
     = Returned (mkResult None (Some "category_not_found"))
     ∧ db (demo_createPost c demo_world).2 = db demo_world)
  ∧ ((demo_updatePost post1 u demo_world).1
     = Returned (mkResult None (Some "category_not_found"))
     ∧ db (demo_updatePost post1 u demo_world).2 = db demo_world).
Proof.
  cbv zeta.
  split; [reflexivity|]. split; [reflexivity|]. split; [reflexivity|].
  split; [reflexivity|]. split.
  - apply (proj1 (unknown_category_is_refused is_uuid demo_normalize demo_slug
                    demo_uuid demo_order (mkCreateData "Fresh" "hi" (Some tag9) None [tag1])
                    post1 (mkUpdateData "Hello" "hi" None (Some false) None)
                    demo_world tag9 eq_refl
                    (or_intror (conj eq_refl eq_refl)))); reflexivity.
  - apply (proj2 (unknown_category_is_refused is_uuid demo_normalize demo_slug
                    demo_uuid demo_order (mkCreateData "Fresh" "hi" None None [])
                    post1 (mkUpdateData "Hello" "hi" (Some "seven") (Some false) None)
                    demo_world "seven" eq_refl (or_introl eq_refl)));
      [reflexivity | vm_compute; by eexists | reflexivity].
Defined.

Lemma derived_columns_stay_in_step_witness :
  let c := mkCreateData "Fresh" "hi" None None [tag1] in
  derived_columns_ok demo_normalize demo_slug (db demo_world)
  ∧ derived_columns_ok demo_normalize demo_slug (db (demo_createPost c demo_world).2).
Proof.
  cbv zeta.
  assert (Hok : derived_columns_ok demo_normalize demo_slug (db demo_world)).
  { unfold derived_columns_ok. simpl.
    repeat (apply map_Forall_insert_2; [done|]). apply map_Forall_empty. }
  split; [exact Hok|].
  exact (proj1 (derived_columns_stay_in_step is_uuid demo_normalize demo_slug
                  demo_uuid demo_order _ post1
                  (mkUpdateData "Hello" "hi" None (Some false) None) demo_world Hok)).
Defined.

Lemma listed_posts_are_served_alike_witness :
  let first := mkPostView post1 "Hello World" "Hello World" "hi" (Some false) None in
  let second := mkPostView post2 "Second" "Second" "text" (Some true) (Some "news")
                  (Some ["tag-two"]) in
  next_fault linked_world = None
  ∧ head_fault (tail (faults linked_world)) = None
  ∧ (listPosts demo_order linked_world).1
    = Returned (mkReply (PostsBody [second; first (Some ["tag-two"; "tag-one"])]) OK)
  ∧ (demo_getPost post1 linked_world).1
    = Returned (mkReply (PostBody (first (Some ["tag-one"; "tag-two"]))) OK)
  ∧ ∃ posts,
      (listPosts demo_order linked_world).1 = Returned (mkReply (PostsBody posts) OK)
      ∧ NoDup (v_id <$> posts)
      ∧ (∀ i, i ∈ v_id <$> posts ↔ is_Some (postTable (db linked_world) !! i))
      ∧ (∀ v, v ∈ posts -> is_uuid (v_id v) = true ->
           ∃ names names',
             v_tags v = Some names ∧ names' ≡ₚ names
             ∧ (demo_getPost (v_id v) linked_world).1
               = Returned (mkReply
                   (PostBody (mkPostView (v_id v) (v_title v) (v_slug v) (v_content v)
                                (v_published v) (v_category v) (Some names'))) OK)).
Proof.
  cbv zeta. split; [reflexivity|]. split; [reflexivity|].
  split; [vm_compute; reflexivity|]. split; [vm_compute; reflexivity|].
  exact (listed_posts_are_served_alike is_uuid demo_order linked_world eq_refl eq_refl).
Defined.

Lemma putPost_unknown_id_witness :
  let input := mkPutBody (Some "Hello") None None None None in
  next_fault demo_world = None
  ∧ is_uuid "42" = false
  ∧ demo_putPost "42" input demo_world
    = (Returned (problem "Not Found" "Post with id '42' not found" NOT_FOUND),
       advance demo_world).
Proof.
  cbv zeta. split; [reflexivity|]. split; [reflexivity|].
  exact (putPost_unknown_id is_uuid demo_normalize demo_slug demo_order "42"
           (mkPutBody (Some "Hello") None None None None) demo_world
           eq_refl (or_introl eq_refl)).
Defined.

Lemma putPost_keeps_omitted_fields_witness :
  let input := mkPutBody None (Some "edited") (Some None) None None in
  let old := mkPostRow "Second" "Second" "Second" "text" (Some true) (Some cat1) in
  let rep := mkReply
               (PostBody (mkPostView post2 "Second" "Second" "edited" (Some true)
                            None None)) OK in
  let w' := (demo_putPost post2 input demo_world).2 in
  demo_putPost post2 input demo_world = (Returned rep, w')
  ∧ postTable (db demo_world) !! post2 = Some old
  ∧ ∃ new,
      postTable (db w') !! post2 = Some new
      ∧ r_title new = "Second" ∧ r_content new = "edited"
      ∧ r_categoryId new = None ∧ r_published new = Some true
      ∧ r_normalizedTitle new = demo_normalize (r_title new)
      ∧ r_slug new = demo_slug (r_title new)
      ∧ (@None (list string) = None ->
         postsToTags (db w') = postsToTags (db demo_world)).
Proof.
  cbv zeta.
  assert (Hrun : demo_putPost post2
                   (mkPutBody None (Some "edited") (Some None) None None) demo_world
                 = (Returned
                      (mkReply
                         (PostBody (mkPostView post2 "Second" "Second" "edited"
                                      (Some true) None None)) OK),
                    (demo_putPost post2
                       (mkPutBody None (Some "edited") (Some None) None None)
                       demo_world).2))
    by (vm_compute; reflexivity).
  split; [exact Hrun|]. split; [reflexivity|].
  exact (putPost_keeps_omitted_fields is_uuid demo_normalize demo_slug demo_order
           _ _ _ _ _ _ Hrun eq_refl eq_refl).
Defined.

Lemma statuses_without_engine_failure_witness :
  faults demo_world = []
  ∧ status <$> (match (demo_getPost post1 demo_world).1 with
                | Returned rep => Some rep | _ => None end) = Some OK
  ∧ status <$> (match (deletePostReply is_uuid tag9 demo_world).1 with
                | Returned rep => Some rep | _ => None end) = Some NOT_FOUND.
Proof.
  split; [reflexivity|]. split.
  - exact (proj1 (statuses_without_engine_failure is_uuid demo_order post1 demo_world eq_refl)).
  - exact (proj2 (statuses_without_engine_failure is_uuid demo_order tag9 demo_world eq_refl)).
Defined.

Lemma postPost_created_is_stored_witness :
  let c := mkCreateData "Fresh" "hi" (Some cat1) None [tag1] in
  let d := mkPostData (mkPost (demo_uuid 0) "Fresh" "Fresh" "hi" (Some false)
                         (Some cat1)) (Some "news") None in
  let w' := (demo_postPost c demo_world).2 in
  demo_postPost c demo_world = (Returned (mkReply (CreatedBody (Some d)) CREATED), w')
  ∧ ∃ d', CreatedBody (Some d) = CreatedBody (Some d')
          ∧ title (post d') = "Fresh" ∧ content (post d') = "hi"
          ∧ postTable (db demo_world) !! id (post d') = None
          ∧ postTable (db w') !! id (post d')
            = Some (mkPostRow "Fresh" (demo_normalize "Fresh") (demo_slug "Fresh")
                      "hi" (Some false) (Some cat1)).
Proof.
  cbv zeta.
  assert (Hrun : demo_postPost (mkCreateData "Fresh" "hi" (Some cat1) None [tag1])
                   demo_world
                 = (Returned
                      (mkReply
                         (CreatedBody
                            (Some (mkPostData
                                     (mkPost (demo_uuid 0) "Fresh" "Fresh" "hi"
                                        (Some false) (Some cat1))
                                     (Some "news") None))) CREATED),
                    (demo_postPost (mkCreateData "Fresh" "hi" (Some cat1) None [tag1])
                       demo_world).2))
    by (vm_compute; reflexivity).
  split; [exact Hrun|].
  exact (postPost_created_is_stored is_uuid demo_normalize demo_slug demo_uuid demo_order
           _ _ _ _ Hrun eq_refl).
Defined.

Lemma handlers_reply_or_throw_witness :
  let w := mkWorld demo_db [Some (pg_error "08006")] 0 in
  let input := mkPutBody (Some "Hello") None None None None in
  delete_failed w
  ∧ (demo_getPost post1 w).1
    = Thrown (js_error "RangeError: status must be in the range of 200 to 599")
  ∧ (∃ e, (demo_getPost post1 w).1 = Thrown e)
  ∧ (∃ e, (demo_putPost post1 input w).1 = Thrown e)
  ∧ (∃ e, (deletePostReply is_uuid post1 w).1 = Thrown e).
Proof.
  cbv zeta.
  assert (Hfail : delete_failed (mkWorld demo_db [Some (pg_error "08006")] 0)).
  { exists (pg_error "08006"). split; [discriminate|reflexivity]. }
  split; [exact Hfail|]. split; [vm_compute; reflexivity|].
  exact (proj2 (proj2 (proj2 (proj2
           (handlers_reply_or_throw is_uuid demo_normalize demo_slug demo_uuid
              demo_order post1 (mkCreateData "Fresh" "hi" None None [])
              (mkPutBody (Some "Hello") None None None None)
              (mkWorld demo_db [Some (pg_error "08006")] 0))))) Hfail).
Defined.
